(** * The map cross-filter of the SNIP/SEGEPLAN audit dashboard

    A shallow embedding of the map-filter part of [dashboard_app.py]:
    the session state that holds the active filter ([ensure_state],
    [reset_map], [set_map_filter]), the selection of the points to draw
    ([filtered_points]) and the part of [render_map] that decides what is
    drawn.  The pandas and Streamlit calls the script makes are modelled
    in the modules [pd] and [st]. *)

From Stdlib Require Import Ascii QArith Qcanon.
From stdpp Require Import gmap strings list fin_maps.

Close Scope Qc_scope.
Close Scope Q_scope.
Open Scope string_scope.

(** ** Python values *)

(** The scalars that occur in a cell of a frame or in a filter dictionary.
    A finite number is a rational in lowest terms, so that Python's
    [1 == 1.0 == True] is equality of the constructor's argument
    (infinities are not modelled).  [VNaN] is the float NaN that pandas uses
    for a missing cell, [VNone] is Python's [None]. *)
Inductive value :=
  | VNone
  | VNaN
  | VNum (q : Qc)
  | VStr (s : string).

#[global] Instance Qc_eq_decision : EqDecision Qc := Qc_eq_dec.

#[global] Instance value_eq_decision : EqDecision value.
Proof. solve_decision. Defined.

Definition num (z : Z) : value := VNum (Q2Qc (inject_Z z)).

(** Python's dictionaries with string keys, and the rows of a frame. *)
Abbreviation dict := (gmap string value).
Abbreviation row := (gmap string value).

(** ** Exceptions *)

(** [RerunException] is what [st.rerun()] raises to stop the script and
    start it again; the others are what pandas and Python raise. *)
Inductive exn :=
  | RerunException
  | KeyError (key : string)
  | ValueError
  | TypeError.

#[global] Instance exn_eq_decision : EqDecision exn.
Proof. solve_decision. Defined.

Inductive result (A : Type) :=
  | Ok (a : A)
  | Raise (e : exn).
Arguments Ok {A} a.
Arguments Raise {A} e.

#[global] Instance result_ret : MRet result := @Ok.
#[global] Instance result_bind : MBind result := λ A B f m,
  match m with
  | Ok a => f a
  | Raise e => Raise e
  end.
#[global] Instance result_fmap : FMap result := λ A B f m,
  match m with
  | Ok a => Ok (f a)
  | Raise e => Raise e
  end.

(** Element-wise conversion of a column, stopping at the first exception. *)
Fixpoint traverse {A B} (f : A → result B) (l : list A) : result (list B) :=
  match l with
  | [] => Ok []
  | x :: l' => y ← f x; ys ← traverse f l'; Ok (y :: ys)
  end.

(** ** What the libraries parse *)

(** How pandas reads a string as a number ([pd.to_numeric]) and how Python
    reads one as an integer ([int(s)], used by [astype(int)] on a column of
    objects).  Both belong to the libraries, not to the dashboard: the
    development is parametric in them. *)
Class Parsers := {
  str_to_float : string → option Qc;
  str_to_int : string → option Z;
}.

(** A small instance for decimal literals ([-12], [14.5]), used to run the
    model on concrete frames. *)
Definition digit_of (a : ascii) : option N :=
  let n := N_of_ascii a in
  if ((48 <=? n) && (n <=? 57))%N then Some (n - 48)%N else None.

Fixpoint read_digits (s : string) (acc : N) (cnt : nat) : N * nat * string :=
  match s with
  | EmptyString => (acc, cnt, s)
  | String a s' =>
      match digit_of a with
      | Some d => read_digits s' (10 * acc + d)%N (S cnt)
      | None => (acc, cnt, s)
      end
  end.

Definition strip_sign (s : string) : bool * string :=
  match s with
  | String "-" s' => (true, s')
  | _ => (false, s)
  end.

Definition signed (neg : bool) (n : N) : Z :=
  if neg then (- Z.of_N n)%Z else Z.of_N n.

Definition decimal_int (s : string) : option Z :=
  let '(neg, s1) := strip_sign s in
  match read_digits s1 0%N 0 with
  | (n, S _, EmptyString) => Some (signed neg n)
  | _ => None
  end.

Definition decimal_float (s : string) : option Qc :=
  let '(neg, s1) := strip_sign s in
  match read_digits s1 0%N 0 with
  | (n, S _, EmptyString) => Some (Q2Qc (inject_Z (signed neg n)))
  | (n, S _, String "." s2) =>
      match read_digits s2 0%N 0 with
      | (m, S k, EmptyString) =>
          let scale := (10 ^ N.of_nat (S k))%N in
          Some (Q2Qc (Qmake (signed neg (n * scale + m)%N)
                            (Pos.of_nat (N.to_nat scale))))
      | _ => None
      end
  | _ => None
  end.

Definition decimal_parsers : Parsers :=
  {| str_to_float := decimal_float; str_to_int := decimal_int |}.

(** ** pandas *)

Module pd.

(** A frame: its column labels and its rows in index order.  A cell that
    a row does not hold reads as NaN. *)
Record DataFrame := mkDataFrame {
  columns : list string;
  rows : list row;
}.

(** A column taken out of a frame, and a boolean mask. *)
Abbreviation Series := (list value).
Abbreviation Mask := (list bool).

Definition cell (c : string) (r : row) : value := default VNaN (r !! c).

Definition isna (v : value) : bool :=
  match v with
  | VNone | VNaN => true
  | _ => false
  end.

(** [d[c]]: the column, or [KeyError]. *)
Definition getitem (c : string) (d : DataFrame) : result Series :=
  if bool_decide (c ∈ columns d) then Ok (cell c <$> rows d)
  else Raise (KeyError c).

(** [d[c] = s] for a column [c] that [d] has and a series computed
    cell by cell from that column. *)
Definition setitem_map (c : string) (f : value → value) (d : DataFrame) : DataFrame :=
  {| columns := columns d;
     rows := (λ r, <[c := f (cell c r)]> r) <$> rows d |}.

(** [d[mask]]: the rows whose mask entry is [True]. *)
Fixpoint select {A} (m : Mask) (l : list A) : list A :=
  match m, l with
  | b :: m', x :: l' => if b then x :: select m' l' else select m' l'
  | _, _ => []
  end.

Definition getitem_mask (m : Mask) (d : DataFrame) : DataFrame :=
  {| columns := columns d; rows := select m (rows d) |}.

(** [d.iloc[0:0]]: the same columns, no rows. *)
Definition iloc_0_0 (d : DataFrame) : DataFrame :=
  {| columns := columns d; rows := [] |}.

(** [d.head(n)]. *)
Definition head (n : nat) (d : DataFrame) : DataFrame :=
  {| columns := columns d; rows := take n (rows d) |}.

(** [d.empty]: no rows or no columns. *)
Definition empty (d : DataFrame) : bool :=
  bool_decide (rows d = []) || bool_decide (columns d = []).

(** [d.dropna(subset=cs)]: drops the rows with a missing cell in one of
    the columns [cs]. *)
Definition dropna (cs : list string) (d : DataFrame) : DataFrame :=
  {| columns := columns d;
     rows := filter (λ r, forallb (λ c, negb (isna (cell c r))) cs = true) (rows d) |}.

(** [s == v] on a series: numbers by value, strings by content, and
    [False] wherever either side is missing or the types differ. *)
Definition eq_scalar (x v : value) : bool :=
  match x, v with
  | VNum a, VNum b => bool_decide (a = b)
  | VStr a, VStr b => bool_decide (a = b)
  | _, _ => false
  end.

Definition series_eq (s : Series) (v : value) : Mask := (λ x, eq_scalar x v) <$> s.

(** [m1 & m2]. *)
Fixpoint mask_and (m1 m2 : Mask) : Mask :=
  match m1, m2 with
  | a :: m1', b :: m2' => (a && b) :: mask_and m1' m2'
  | _, _ => []
  end.

(** [s.fillna(0)]. *)
Definition fillna0 (v : value) : value := if isna v then num 0 else v.

(** Truncation towards zero, what [int(x)] does to a float. *)
Definition trunc (q : Qc) : Z := Z.quot (Qnum (this q)) (Z.pos (Qden (this q))).

Section parsing.
Context `{!Parsers}.

(** [pd.to_numeric(s, errors="coerce")] on one cell. *)
Definition to_numeric (v : value) : value :=
  match v with
  | VNum q => VNum q
  | VStr s => match str_to_float s with Some q => VNum q | None => VNaN end
  | VNone | VNaN => VNaN
  end.

(** [s.astype(int)] on one cell. *)
Definition astype_int (v : value) : result Z :=
  match v with
  | VNum q => Ok (trunc q)
  | VStr s => match str_to_int s with Some z => Ok z | None => Raise ValueError end
  | VNaN => Raise ValueError
  | VNone => Raise TypeError
  end.
End parsing.

End pd.

(** ** Streamlit *)

Module st.

(** [st.session_state]: the per-session store; the dashboard keeps one
    entry in it, the filter dictionary under ["map_filter"]. *)
Abbreviation session_state := (gmap string dict).

(** What the script writes to the page, in order.  [html] carries the
    rows that became markers of the folium map. *)
Inductive element :=
  | info (body : string)
  | subheader (body : string)
  | caption (total shown : nat)
  | html (markers : list row).

(** A piece of the script: it reads and writes the session state and either
    returns or raises. *)
Definition script (A : Type) : Type := session_state → session_state * result A.

Definition ret {A} (a : A) : script A := λ ss, (ss, Ok a).

Definition bind {A B} (m : script A) (k : A → script B) : script B := λ ss,
  match m ss with
  | (ss', Ok a) => k a ss'
  | (ss', Raise e) => (ss', Raise e)
  end.

(** [st.session_state.get(key, dflt)]. *)
Definition session_get (key : string) (dflt : dict) : script dict := λ ss,
  (ss, Ok (default dflt (ss !! key))).

(** [key in st.session_state]. *)
Definition session_contains (key : string) : script bool := λ ss,
  (ss, Ok (bool_decide (is_Some (ss !! key)))).

(** [st.session_state[key] = v]. *)
Definition session_set (key : string) (v : dict) : script unit := λ ss,
  (<[key := v]> ss, Ok tt).

(** [st.rerun()]. *)
Definition rerun : script unit := λ ss, (ss, Raise RerunException).

End st.

Declare Scope script_scope.
Delimit Scope script_scope with script.
Notation "x <- m ;; k" := (st.bind m (λ x, k))
  (at level 100, m at next level, right associativity) : script_scope.
Notation "m ;; k" := (st.bind m (λ _, k))
  (at level 100, right associativity) : script_scope.

(** ** The dashboard *)

Section dashboard.
Context `{!Parsers}.
Import pd.

(** *** Load *)

(** The loop that follows the five [load_csv] calls: each listed column
    that the frame has is converted to numbers, a column it does not have
    is skipped. *)
Definition snip_numeric_columns : list string :=
  ["presupuesto_actual_vigente"; "ejecutado_total_calc"; "no_ejecutado_vigente";
   "ratio_ejec_real"; "riesgo_fiscal"; "flag_inconsistencia_estado_momento";
   "months_since_last_exec"; "zero_run_max"; "slope_exec_12m"; "reversiones_fin"].

Definition ensure_numeric (cs : list string) (df : DataFrame) : DataFrame :=
  foldl (λ d c, if bool_decide (c ∈ columns d) then setitem_map c to_numeric d else d) df cs.

(** *** Selection state (map filter) *)

Definition ALL : dict := {["kind" := VStr "ALL"]}.

Definition ensure_state : st.script unit :=
  (present <- st.session_contains "map_filter";;
   if negb present then st.session_set "map_filter" ALL else st.ret tt)%script.

Definition reset_map : st.script unit :=
  (prev <- st.session_get "map_filter" ALL;;
   let new := ALL in
   st.session_set "map_filter" new;;
   if bool_decide (prev ≠ new) then st.rerun else st.ret tt)%script.

(** [{"kind": kind, **payload}]: the keys of [payload] are written after
    ["kind"], so a ["kind"] entry of the payload wins.  The comparison
    [prev != new] of two dictionaries is equality of the maps; for a NaN
    held in a payload this is the identity case of Python's comparison. *)
Definition set_map_filter (kind : string) (payload : dict) : st.script unit :=
  (prev <- st.session_get "map_filter" ALL;;
   let new := payload ∪ {["kind" := VStr kind]} in
   st.session_set "map_filter" new;;
   if bool_decide (prev ≠ new) then st.rerun else st.ret tt)%script.

(** *** Map filtering logic *)

(** [mf.get(key)] and [mf.get(key, dflt)]. *)
Definition get (mf : dict) (key : string) : value := default VNone (mf !! key).
Definition get_default (mf : dict) (key : string) (dflt : value) : value :=
  default dflt (mf !! key).

(** [kind == "..."] on Python scalars. *)
Definition is_str (v : value) (s : string) : bool := bool_decide (v = VStr s).

Definition filtered_points (df_snip : DataFrame) (mf : dict) : result DataFrame :=
  let d := df_snip in
  if negb (bool_decide ("latitud" ∈ columns d) && bool_decide ("longitud" ∈ columns d))
  then Ok (iloc_0_0 d)
  else
    let d := setitem_map "latitud" to_numeric d in
    let d := setitem_map "longitud" to_numeric d in
    let d := dropna ["latitud"; "longitud"] d in
    let kind := get_default mf "kind" (VStr "ALL") in
    if is_str kind "ALL" then Ok d
    else if is_str kind "SNIP" then
      s ← getitem "snip" d;
      Ok (getitem_mask (series_eq s (get mf "snip")) d)
    else if is_str kind "MUNICIPIO" then
      dep ← getitem "departamento" d;
      mun ← getitem "municipio" d;
      Ok (getitem_mask (mask_and (series_eq dep (get mf "departamento"))
                                 (series_eq mun (get mf "municipio"))) d)
    else if is_str kind "CODEDE" then
      dep ← getitem "departamento" d;
      Ok (getitem_mask (series_eq dep (get mf "departamento")) d)
    else if is_str kind "ENTIDAD" then
      e ← getitem "entidad_ejecutora" d;
      Ok (getitem_mask (series_eq e (get mf "entidad_ejecutora")) d)
    else if is_str kind "ESTADO" then
      e ← getitem "estado_auditoria" d;
      Ok (getitem_mask (series_eq e (get mf "estado_auditoria")) d)
    else if is_str kind "FLAG_INCONSISTENCIA" then
      f ← getitem "flag_inconsistencia_estado_momento" d;
      ints ← traverse astype_int (fillna0 <$> f);
      Ok (getitem_mask ((λ z, bool_decide (z = 1%Z)) <$> ints) d)
    else Ok d.

(** *** The map *)

Definition max_markers : nat := 5000.

(** [render_map]: the message for an empty frame, otherwise the heading,
    the caption with the two counts and the map with one marker per row of
    [df_points.head(max_markers)].  The map centre, the tile layers and the
    text of the popups are presentation and are left out. *)
Definition render_map (df_points : DataFrame) (title : string) : list st.element :=
  if empty df_points then [st.info "No hay puntos para el filtro actual."]
  else
    let pts := head max_markers df_points in
    [st.subheader title;
     st.caption (length (rows df_points)) (length (rows df_points) `min` max_markers);
     st.html (rows pts)].

End dashboard.

(** ** Definitions used to state the properties *)

Section properties.
Context `{!Parsers}.
Import pd.

(** The first step of [filtered_points] on a frame that has both
    coordinate columns: the coordinates as numbers, and only the rows
    that have both. *)
Definition numeric_coords (r : row) : row :=
  let r := <["latitud" := to_numeric (cell "latitud" r)]> r in
  <["longitud" := to_numeric (cell "longitud" r)]> r.

Definition has_coords (r : row) : bool :=
  negb (isna (cell "latitud" r)) && negb (isna (cell "longitud" r)).

Definition with_coords (d : DataFrame) : DataFrame :=
  dropna ["latitud"; "longitud"]
    (setitem_map "longitud" to_numeric (setitem_map "latitud" to_numeric d)).

(** The row predicate of each filter variant. *)
Definition selects (mf : dict) (r : row) : bool :=
  let kind := get_default mf "kind" (VStr "ALL") in
  if is_str kind "ALL" then true
  else if is_str kind "SNIP" then eq_scalar (cell "snip" r) (get mf "snip")
  else if is_str kind "MUNICIPIO" then
    eq_scalar (cell "departamento" r) (get mf "departamento")
    && eq_scalar (cell "municipio" r) (get mf "municipio")
  else if is_str kind "CODEDE" then
    eq_scalar (cell "departamento" r) (get mf "departamento")
  else if is_str kind "ENTIDAD" then
    eq_scalar (cell "entidad_ejecutora" r) (get mf "entidad_ejecutora")
  else if is_str kind "ESTADO" then
    eq_scalar (cell "estado_auditoria" r) (get mf "estado_auditoria")
  else if is_str kind "FLAG_INCONSISTENCIA" then
    match astype_int (fillna0 (cell "flag_inconsistencia_estado_momento" r)) with
    | Ok z => bool_decide (z = 1%Z)
    | Raise _ => false
    end
  else true.

(** The filter that the session holds, and the one [set_map_filter]
    builds. *)
Definition current (ss : st.session_state) : dict := default ALL (ss !! "map_filter").

Definition build (kind : string) (payload : dict) : dict :=
  payload ∪ {["kind" := VStr kind]}.

(** The tags that [filtered_points] tests for. *)
Definition known_kinds : list string :=
  ["ALL"; "SNIP"; "MUNICIPIO"; "CODEDE"; "ENTIDAD"; "ESTADO"; "FLAG_INCONSISTENCIA"].

(** An exception other than the rerun signal. *)
Definition is_error {A} (r : result A) : bool :=
  match r with
  | Ok _ | Raise RerunException => false
  | Raise _ => true
  end.

(** Python's truth value of a flag cell, with a missing flag read as
    false. *)
Definition flag_truthy (v : value) : bool :=
  match v with
  | VNone | VNaN => false
  | VNum q => negb (bool_decide (q = Q2Qc 0))
  | VStr s => negb (bool_decide (s = ""))
  end.

(** A flag cell as the data model has it: a boolean ([True] is 1, [False]
    is 0) or missing. *)
Definition boolean_flag (v : value) : Prop :=
  v = num 1 ∨ v = num 0 ∨ v = VNaN ∨ v = VNone.


End properties.

(** ** Sample data *)

Section samples.
Import pd.

Definition point_columns : list string :=
  ["snip"; "departamento"; "municipio"; "entidad_ejecutora"; "estado_auditoria";
   "flag_inconsistencia_estado_momento"; "latitud"; "longitud"].

Definition point (snip : Z) (dep mun ent est : string) (flag lat lon : value) : row :=
  list_to_map
    [("snip", num snip); ("departamento", VStr dep); ("municipio", VStr mun);
     ("entidad_ejecutora", VStr ent); ("estado_auditoria", VStr est);
     ("flag_inconsistencia_estado_momento", flag); ("latitud", lat); ("longitud", lon)].

Definition decimal (n : Z) (d : positive) : value := VNum (Q2Qc (n # d)).

Definition p_mixco : row :=
  point 101 "Guatemala" "Mixco" "MICIVI" "Finalizado" (num 1) (decimal 1463 100) (decimal (-9060) 100).
Definition p_villa_nueva : row :=
  point 102 "Guatemala" "Villa Nueva" "MINEDUC" "En ejecucion" VNaN (decimal 1452 100) (decimal (-9058) 100).
Definition p_flores : row :=
  point 103 "Peten" "Flores" "MICIVI" "En ejecucion" (num 0) (decimal 1693 100) (decimal (-8989) 100).
Definition p_no_latitude : row :=
  point 104 "Guatemala" "Amatitlan" "MSPAS" "Finalizado" (num 1) VNaN (decimal (-9062) 100).

(** Three located points, two of them in Guatemala, and a fourth point
    without latitude. *)
Definition sample : DataFrame :=
  {| columns := point_columns; rows := [p_mixco; p_villa_nueva; p_flores; p_no_latitude] |}.

(** A frame whose coordinate columns were read as text. *)
Definition p_text_coords : row :=
  point 105 "Guatemala" "Mixco" "MICIVI" "Finalizado" (num 0) (VStr "14.5") (VStr "-90.5").

Definition sample_text_coords : DataFrame :=
  {| columns := point_columns; rows := [p_text_coords] |}.

(** A frame without the latitude column. *)
Definition sample_no_latitude : DataFrame :=
  {| columns := ["snip"; "departamento"; "longitud"];
     rows := [list_to_map [("snip", num 106); ("departamento", VStr "Peten");
                           ("longitud", decimal (-8989) 100)]] |}.

(** A point whose flag is the number 2. *)
Definition p_flag_two : row :=
  point 107 "Peten" "Flores" "MICIVI" "Finalizado" (num 2) (decimal 1693 100) (decimal (-8989) 100).

(** The session as [ensure_state] leaves it at start-up. *)
Definition session_0 : st.session_state := {["map_filter" := {["kind" := VStr "ALL"]}]}.

End samples.

(** ** Lemmas on the pandas operations *)

Section pandas_lemmas.
Context `{!Parsers}.
Import pd.

Lemma select_fmap {A} (p : A → bool) (l : list A) :
  select (p <$> l) l = filter (λ x, p x = true) l.
Proof.
  induction l as [|x l IH]; [done|].
  cbn [fmap list_fmap select]. rewrite filter_cons, IH.
  destruct (p x) eqn:Hp; by case_decide.
Qed.

Lemma filter_all {A} (P : A → Prop) `{!∀ x, Decision (P x)} (l : list A) :
  (∀ x, x ∈ l → P x) → filter P l = l.
Proof.
  induction l as [|x l IH]; intros Hl; [done|].
  rewrite filter_cons_True by (apply Hl; left).
  f_equal. apply IH. intros y Hy. apply Hl. by right.
Qed.

Lemma select_sublist {A} (m : Mask) (l : list A) : select m l `sublist_of` l.
Proof.
  revert m. induction l as [|x l IH]; intros [|[] m]; cbn;
    first [by constructor | apply sublist_nil_l].
Qed.

Lemma mask_and_fmap {A} (p q : A → bool) (l : list A) :
  mask_and (p <$> l) (q <$> l) = (λ x, p x && q x) <$> l.
Proof. induction l as [|x l IH]; [done|]. cbn. by f_equal. Qed.

Lemma series_eq_cells (c : string) (v : value) (l : list row) :
  series_eq (cell c <$> l) v = (λ r, eq_scalar (cell c r) v) <$> l.
Proof. unfold series_eq. by rewrite <- list_fmap_compose. Qed.

Lemma to_numeric_idemp v : to_numeric (to_numeric v) = to_numeric v.
Proof. destruct v as [| |q|s]; cbn; try done. by destruct (str_to_float s). Qed.

Lemma to_numeric_notna v :
  isna (to_numeric v) = false → ∃ q, to_numeric v = VNum q.
Proof.
  destruct v as [| |q|s]; cbn; try done; [by eexists|].
  destruct (str_to_float s); [by eexists|done].
Qed.

Lemma cell_numeric_coords_lat r :
  cell "latitud" (numeric_coords r) = to_numeric (cell "latitud" r).
Proof.
  unfold numeric_coords, cell at 1.
  rewrite lookup_insert_ne by done. by rewrite lookup_insert_eq.
Qed.

Lemma cell_numeric_coords_lon r :
  cell "longitud" (numeric_coords r) = to_numeric (cell "longitud" r).
Proof.
  unfold numeric_coords, cell at 1. rewrite lookup_insert_eq.
  unfold cell. by rewrite lookup_insert_ne.
Qed.

Lemma cell_numeric_coords_other c r :
  c ≠ "latitud" → c ≠ "longitud" → cell c (numeric_coords r) = cell c r.
Proof.
  intros ??. unfold numeric_coords, cell.
  by rewrite !lookup_insert_ne.
Qed.

Lemma rows_with_coords d :
  rows (with_coords d) = filter (λ r, has_coords r = true) (numeric_coords <$> rows d).
Proof.
  unfold with_coords, dropna, setitem_map; cbn [rows columns].
  rewrite <- list_fmap_compose.
  apply list_filter_iff. intros r. unfold has_coords. cbn.
  by rewrite andb_true_r.
Qed.

Lemma columns_with_coords d : columns (with_coords d) = columns d.
Proof. done. Qed.

End pandas_lemmas.

(** ** The selection, variant by variant *)

Section selection.
Context `{!Parsers}.
Import pd.

Lemma traverse_Ok_fmap {A B C} (f : A → result B) (g : B → C) (dflt : C) l ys :
  traverse f l = Ok ys →
  g <$> ys = (λ x, match f x with Ok y => g y | Raise _ => dflt end) <$> l.
Proof.
  revert ys. induction l as [|x l IH]; intros ys; cbn.
  - by intros [= <-].
  - destruct (f x) as [y|e]; cbn; [|done].
    destruct (traverse f l) as [ys'|e]; cbn; [|done].
    intros [= <-]. cbn. f_equal. by apply IH.
Qed.

Lemma traverse_all_Ok {A B C} (f : B → result C) (h : A → B) (g : A → C) l :
  (∀ x, x ∈ l → f (h x) = Ok (g x)) → traverse f (h <$> l) = Ok (g <$> l).
Proof.
  induction l as [|x l IH]; intros Hl; cbn; [done|].
  rewrite (Hl x) by left. cbn. rewrite IH; [done|].
  intros y Hy. apply Hl. by right.
Qed.

Lemma traverse_returns {A B} (f : A → result B) l :
  (∀ x, x ∈ l → ∃ y, f x = Ok y) → ∃ ys, traverse f l = Ok ys.
Proof.
  induction l as [|x l IH]; intros Hl; [by eexists|].
  destruct (Hl x) as [y Hy]; [left|].
  destruct IH as [ys Hys]; [intros x' ?; apply Hl; by right|].
  exists (y :: ys). cbn. rewrite Hy. cbn. by rewrite Hys.
Qed.

Lemma is_str_kind (mf : dict) (k k' : string) :
  mf !! "kind" = Some (VStr k) →
  is_str (get_default mf "kind" (VStr "ALL")) k' = bool_decide (k = k').
Proof.
  intros Hk. unfold is_str, get_default. rewrite Hk. cbn.
  apply bool_decide_ext. split; congruence.
Qed.

Lemma filtered_points_no_columns d mf :
  ¬ ("latitud" ∈ columns d ∧ "longitud" ∈ columns d) →
  filtered_points d mf = Ok (iloc_0_0 d).
Proof.
  intros Hc. unfold filtered_points.
  destruct (bool_decide ("latitud" ∈ columns d)) eqn:Hla;
    destruct (bool_decide ("longitud" ∈ columns d)) eqn:Hlo; cbn; try done.
  destruct Hc. split; by eapply bool_decide_eq_true_1.
Qed.

Lemma getitem_with_coords c d :
  getitem c (with_coords d) =
  if bool_decide (c ∈ columns d) then Ok (cell c <$> rows (with_coords d))
  else Raise (KeyError c).
Proof. done. Qed.

Lemma getitem_mask_cells (p : row → bool) d :
  getitem_mask (p <$> rows d) d =
  {| columns := columns d; rows := filter (λ r, p r = true) (rows d) |}.
Proof. unfold getitem_mask. by rewrite select_fmap. Qed.

Ltac getcols :=
  unfold getitem; repeat case_bool_decide; cbn [mbind result_bind]; try done.

(** What [filtered_points] returns when it returns: the rows of the
    coordinate step that the variant's predicate selects, all of them and
    in their order. *)
Lemma filtered_points_Ok d mf out :
  "latitud" ∈ columns d → "longitud" ∈ columns d →
  filtered_points d mf = Ok out →
  out = {| columns := columns d;
           rows := filter (λ r, selects mf r = true) (rows (with_coords d)) |}.
Proof.
  intros Hla Hlo. unfold filtered_points, selects.
  rewrite !bool_decide_eq_true_2 by done. cbn [andb negb].
  change (dropna _ _) with (with_coords d).
  set (d' := with_coords d).
  set (kind := get_default mf "kind" (VStr "ALL")).
  assert (Hall : {| columns := columns d; rows := filter (λ _ : row, true = true) (rows d') |} = d').
  { rewrite filter_all by done. reflexivity. }
  destruct (is_str kind "ALL"); [by intros [= <-]|].
  destruct (is_str kind "SNIP").
  { getcols.
    rewrite series_eq_cells, getitem_mask_cells. by intros [= <-]. }
  destruct (is_str kind "MUNICIPIO").
  { getcols.
    rewrite !series_eq_cells, mask_and_fmap, getitem_mask_cells. by intros [= <-]. }
  destruct (is_str kind "CODEDE").
  { getcols.
    rewrite series_eq_cells, getitem_mask_cells. by intros [= <-]. }
  destruct (is_str kind "ENTIDAD").
  { getcols.
    rewrite series_eq_cells, getitem_mask_cells. by intros [= <-]. }
  destruct (is_str kind "ESTADO").
  { getcols.
    rewrite series_eq_cells, getitem_mask_cells. by intros [= <-]. }
  destruct (is_str kind "FLAG_INCONSISTENCIA").
  { getcols.
    rewrite <- list_fmap_compose.
    destruct (traverse astype_int _) as [ints|e] eqn:Hints; [|done]. cbn [mbind result_bind].
    rewrite (traverse_Ok_fmap _ _ false _ _ Hints).
    rewrite <- list_fmap_compose.
    intros [= <-].
    by rewrite <- (getitem_mask_cells (λ r, match astype_int (fillna0 (cell _ r)) with
                                            | Ok z => bool_decide (z = 1%Z)
                                            | Raise _ => false end) d'). }
  by intros [= <-].
Qed.

End selection.

(** ** The coordinate step *)

Section coordinates.
Context `{!Parsers}.
Import pd.

Lemma lookup_numeric_coords_lat r :
  numeric_coords r !! "latitud" = Some (to_numeric (cell "latitud" r)).
Proof. unfold numeric_coords. rewrite lookup_insert_ne by done. apply lookup_insert_eq. Qed.

Lemma lookup_numeric_coords_lon r :
  numeric_coords r !! "longitud" = Some (to_numeric (cell "longitud" r)).
Proof.
  unfold numeric_coords. rewrite lookup_insert_eq. unfold cell.
  by rewrite lookup_insert_ne.
Qed.

Lemma lookup_numeric_coords_other c r :
  c ≠ "latitud" → c ≠ "longitud" → numeric_coords r !! c = r !! c.
Proof. intros ??. unfold numeric_coords. by rewrite !lookup_insert_ne. Qed.

(** A row whose coordinates are already what [to_numeric] makes of them
    is left as it is. *)
Lemma numeric_coords_id r :
  r !! "latitud" = Some (to_numeric (cell "latitud" r)) →
  r !! "longitud" = Some (to_numeric (cell "longitud" r)) →
  numeric_coords r = r.
Proof.
  intros Hla Hlo. unfold numeric_coords.
  rewrite (insert_id r "latitud") by done. by apply insert_id.
Qed.

Lemma numeric_coords_idemp r : numeric_coords (numeric_coords r) = numeric_coords r.
Proof.
  apply numeric_coords_id.
  - by rewrite cell_numeric_coords_lat, to_numeric_idemp, lookup_numeric_coords_lat.
  - by rewrite cell_numeric_coords_lon, to_numeric_idemp, lookup_numeric_coords_lon.
Qed.

Lemma has_coords_numeric r :
  has_coords (numeric_coords r) = true →
  ∃ la lo, numeric_coords r !! "latitud" = Some (VNum la)
           ∧ numeric_coords r !! "longitud" = Some (VNum lo).
Proof.
  unfold has_coords. rewrite andb_true_iff, !negb_true_iff.
  rewrite cell_numeric_coords_lat, cell_numeric_coords_lon.
  intros [[la Hla]%to_numeric_notna [lo Hlo]%to_numeric_notna].
  exists la, lo. by rewrite lookup_numeric_coords_lat, lookup_numeric_coords_lon, Hla, Hlo.
Qed.



Lemma filter_fmap_fixed {A} (f : A → A) (P : A → Prop)
    `{!∀ x, Decision (P x)} (l : list A) :
  (∀ x, x ∈ l → P (f x) → f x = x) →
  filter P (f <$> l) `sublist_of` l.
Proof.
  induction l as [|x l IH]; intros Hl; [done|].
  assert (IH' : filter P (f <$> l) `sublist_of` l).
  { apply IH. intros y Hy. apply Hl. by right. }
  cbn [fmap list_fmap]. rewrite filter_cons.
  destruct (decide (P (f x))) as [HP|HP]; [|by constructor].
  rewrite (Hl x) by (done || left). by constructor.
Qed.

Lemma DataFrame_eq (a b : DataFrame) :
  columns a = columns b → rows a = rows b → a = b.
Proof. destruct a, b; cbn; congruence. Qed.



(** Whatever the filter, the result keeps the columns and its rows are
    rows of the coordinate step, in their order. *)
Lemma filtered_points_sublist d mf out :
  filtered_points d mf = Ok out →
  columns out = columns d ∧ rows out `sublist_of` rows (with_coords d).
Proof.
  destruct (decide ("latitud" ∈ columns d ∧ "longitud" ∈ columns d)) as [[Hla Hlo]|Hc].
  - intros ->%filtered_points_Ok; [|done..]. split; [done|]. apply sublist_filter.
  - rewrite filtered_points_no_columns by done. intros [= <-].
    split; [done|]. apply sublist_nil_l.
Qed.

End coordinates.

(** ** Properties of the selection *)

#[global] Instance boolean_flag_decision v : Decision (boolean_flag v).
Proof. unfold boolean_flag. apply _. Defined.

(** Closes a decidable goal on concrete data by evaluation. *)
Ltac by_evaluation := apply (bool_decide_unpack _); vm_compute; exact I.

(** C10: whatever the filter, a frame that lacks the latitude column or the
    longitude column gives a result with the same columns and no rows, and
    no exception. *)
Theorem filtered_points_without_coordinate_columns `{!Parsers} (d : pd.DataFrame) (mf : dict) :
  "latitud" ∉ pd.columns d ∨ "longitud" ∉ pd.columns d →
  filtered_points d mf = Ok {| pd.columns := pd.columns d; pd.rows := [] |}.
Proof.
  intros Hc. apply filtered_points_no_columns. intros [Hla Hlo]. by destruct Hc.
Qed.

Lemma filtered_points_without_coordinate_columns_witness :
  ("latitud" ∉ pd.columns sample_no_latitude ∨ "longitud" ∉ pd.columns sample_no_latitude)
  ∧ filtered_points (H := decimal_parsers) sample_no_latitude
      {["kind" := VStr "CODEDE"; "departamento" := VStr "Peten"]}
    = Ok {| pd.columns := pd.columns sample_no_latitude; pd.rows := [] |}.
Proof.
  assert (Hc : "latitud" ∉ pd.columns sample_no_latitude ∨ "longitud" ∉ pd.columns sample_no_latitude).
  { left. by_evaluation. }
  split; [exact Hc|].
  exact (filtered_points_without_coordinate_columns sample_no_latitude _ Hc).
Defined.

(** C1, as the code has it: the result has the columns of [P]; its rows are,
    in the order of [P], rows of [P] in which latitude and longitude have
    been converted to numbers and nothing else has changed; when no
    coordinate of [P] is a text, they are rows of [P] unchanged. *)
Theorem filtered_points_subset `{!Parsers} (d : pd.DataFrame) (mf : dict) (out : pd.DataFrame) :
  filtered_points d mf = Ok out →
  pd.columns out = pd.columns d
  ∧ pd.rows out `sublist_of` (numeric_coords <$> pd.rows d)
  ∧ (∀ r c, c ≠ "latitud" → c ≠ "longitud" → numeric_coords r !! c = r !! c)
  ∧ ((∀ r c s, r ∈ pd.rows d → c = "latitud" ∨ c = "longitud" → r !! c ≠ Some (VStr s)) →
     pd.rows out `sublist_of` pd.rows d).
Proof.
  intros [Hcols Hsub]%filtered_points_sublist.
  rewrite rows_with_coords in Hsub.
  split; [done|]. split; [|split].
  - etrans; [apply Hsub|]. apply sublist_filter.
  - intros r c ??. by apply lookup_numeric_coords_other.
  - intros Hnum. etrans; [apply Hsub|].
    apply filter_fmap_fixed. intros r Hr (la & lo & Hla & Hlo)%has_coords_numeric.
    rewrite lookup_numeric_coords_lat in Hla. rewrite lookup_numeric_coords_lon in Hlo.
    apply numeric_coords_id.
    + pose proof (Hnum r "latitud") as Hn. unfold pd.cell in *.
      destruct (r !! "latitud") as [[| |q|s]|]; cbn in *; try done.
      exfalso. by eapply (Hn s); [|left|].
    + pose proof (Hnum r "longitud") as Hn. unfold pd.cell in *.
      destruct (r !! "longitud") as [[| |q|s]|]; cbn in *; try done.
      exfalso. by eapply (Hn s); [|right|].
Qed.

Lemma filtered_points_subset_witness :
  filtered_points (H := decimal_parsers) sample {["kind" := VStr "CODEDE"; "departamento" := VStr "Guatemala"]}
    = Ok {| pd.columns := point_columns; pd.rows := [p_mixco; p_villa_nueva] |}
  ∧ [p_mixco; p_villa_nueva] `sublist_of` (numeric_coords (H := decimal_parsers) <$> pd.rows sample).
Proof.
  assert (Hrun : filtered_points (H := decimal_parsers) sample
                   {["kind" := VStr "CODEDE"; "departamento" := VStr "Guatemala"]}
                 = Ok {| pd.columns := point_columns; pd.rows := [p_mixco; p_villa_nueva] |}).
  { vm_compute. reflexivity. }
  split; [exact Hrun|].
  exact (proj1 (proj2 (filtered_points_subset sample _ _ Hrun))).
Defined.

(** C1 as stated fails where the coordinates were read as text: the row
    that comes out holds the numbers 14.5 and -90.5, the row of [P] holds
    the texts, so the output row is not a row of [P]. *)
Lemma filtered_points_subset_counterexample :
  ∃ out r,
    filtered_points (H := decimal_parsers) sample_text_coords ALL = Ok out
    ∧ r ∈ pd.rows out ∧ r ∉ pd.rows sample_text_coords.
Proof.
  exists (with_coords (H := decimal_parsers) sample_text_coords),
         (numeric_coords (H := decimal_parsers) p_text_coords).
  split; [vm_compute; reflexivity|]. split; by_evaluation.
Qed.





(** Outside the boolean flags the test is [int(flag) == 1], not truth: a
    located point whose flag is 2 is not selected, one whose flag is 1.5
    would be. *)
Example flag_two_not_selected :
  flag_truthy (pd.cell "flag_inconsistencia_estado_momento" p_flag_two) = true
  ∧ filtered_points (H := decimal_parsers)
      {| pd.columns := point_columns; pd.rows := [p_flag_two] |}
      {["kind" := VStr "FLAG_INCONSISTENCIA"]}
    = Ok {| pd.columns := point_columns; pd.rows := [] |}.
Proof. split; vm_compute; reflexivity. Qed.

(** Totality: on a frame that has the columns the filters read, with flag
    cells that [astype(int)] accepts, [filtered_points] returns for every
    filter dictionary. *)
Lemma filtered_points_returns `{!Parsers} (d : pd.DataFrame) (mf : dict) :
  (∀ c, c ∈ point_columns → c ∈ pd.columns d) →
  (∀ r, r ∈ pd.rows (with_coords d) →
     ∃ z, pd.astype_int (pd.fillna0 (pd.cell "flag_inconsistencia_estado_momento" r)) = Ok z) →
  ∃ out, filtered_points d mf = Ok out.
Proof.
  intros Hcols Hcast. unfold filtered_points.
  assert (Hin : ∀ c, c ∈ point_columns → bool_decide (c ∈ pd.columns d) = true).
  { intros c Hc. by apply bool_decide_eq_true_2, Hcols. }
  rewrite !Hin by by_evaluation. cbn [andb negb].
  change (pd.dropna _ _) with (with_coords d).
  unfold pd.getitem. change (pd.columns (with_coords d)) with (pd.columns d).
  rewrite !Hin by by_evaluation. cbn [mbind result_bind].
  repeat (case_match; [by eexists|]).
  case_match; [|by eexists].
  rewrite <- list_fmap_compose.
  assert (∃ ints, traverse pd.astype_int
            (pd.fillna0 ∘ pd.cell "flag_inconsistencia_estado_momento" <$> pd.rows (with_coords d))
            = Ok ints) as [ints ->]; [|by eexists].
  apply traverse_returns. intros v (r & -> & Hr)%list_elem_of_fmap. by apply Hcast.
Qed.

(** C7: an empty selection is not an error.  Under the SNIP filter, on a
    frame that has the [snip] column, an identifier that no located point
    carries gives a result with no rows; wherever the columns that the
    filters read are there and the flags convert, [filtered_points] returns
    whether or not anything matches; and a result without rows is drawn as
    the message "No hay puntos para el filtro actual." and nothing else. *)
Theorem empty_selection_is_no_error `{!Parsers} (d : pd.DataFrame) (mf : dict) (title : string) :
  ("snip" ∈ pd.columns d →
   mf !! "kind" = Some (VStr "SNIP") →
   (∀ r, r ∈ pd.rows (with_coords d) → pd.eq_scalar (pd.cell "snip" r) (get mf "snip") = false) →
   filtered_points d mf = Ok {| pd.columns := pd.columns d; pd.rows := [] |})
  ∧ ((∀ c, c ∈ point_columns → c ∈ pd.columns d) →
     (∀ r, r ∈ pd.rows (with_coords d) →
        ∃ z, pd.astype_int (pd.fillna0 (pd.cell "flag_inconsistencia_estado_momento" r)) = Ok z) →
     ∃ out, filtered_points d mf = Ok out)
  ∧ (∀ out, filtered_points d mf = Ok out → pd.rows out = [] →
     render_map out title = [st.info "No hay puntos para el filtro actual."]).
Proof.
  split; [|split].
  - intros Hsnip Hkind Hnone.
    destruct (decide ("latitud" ∈ pd.columns d ∧ "longitud" ∈ pd.columns d)) as [[Hla Hlo]|Hc];
      [|by apply filtered_points_no_columns].
    unfold filtered_points.
    rewrite !bool_decide_eq_true_2 by done. cbn [andb negb].
    change (pd.dropna _ _) with (with_coords d).
    rewrite !(is_str_kind _ _ _ Hkind).
    rewrite bool_decide_eq_false_2 by done.
    rewrite bool_decide_eq_true_2 by done. cbv iota.
    unfold pd.getitem. change (pd.columns (with_coords d)) with (pd.columns d).
    rewrite bool_decide_eq_true_2 by done. cbn [mbind result_bind].
    rewrite series_eq_cells, getitem_mask_cells. f_equal.
    apply DataFrame_eq; [done|]. cbn [pd.rows].
    induction (pd.rows (with_coords d)) as [|r l IH]; [done|].
    rewrite filter_cons_False by (rewrite Hnone; [done|left]).
    apply IH. intros r' ?. apply Hnone. by right.
  - apply filtered_points_returns.
  - intros out _ Hrows. unfold render_map, pd.empty.
    by rewrite (bool_decide_eq_true_2 (pd.rows out = [])).
Qed.

Lemma empty_selection_is_no_error_witness :
  filtered_points (H := decimal_parsers) sample {["kind" := VStr "SNIP"; "snip" := num 12345]}
    = Ok {| pd.columns := point_columns; pd.rows := [] |}
  ∧ render_map {| pd.columns := point_columns; pd.rows := [] |} "Mapa de proyectos"
    = [st.info "No hay puntos para el filtro actual."].
Proof.
  pose proof (empty_selection_is_no_error (H := decimal_parsers) sample
                {["kind" := VStr "SNIP"; "snip" := num 12345]} "Mapa de proyectos")
    as (Hsnip & _ & Hdraw).
  assert (Hrun : filtered_points (H := decimal_parsers) sample
                   {["kind" := VStr "SNIP"; "snip" := num 12345]}
                 = Ok {| pd.columns := point_columns; pd.rows := [] |}).
  { apply Hsnip.
    - by_evaluation.
    - vm_compute. reflexivity.
    - apply Forall_forall. by_evaluation. }
  split; [exact Hrun|].
  exact (Hdraw _ Hrun eq_refl).
Defined.



(** ** Properties of the selection state *)

Lemma build_empty (kind : string) : build kind ∅ = {["kind" := VStr kind]}.
Proof. unfold build. apply (left_id_L ∅ (∪)). Qed.

Lemma set_map_filter_run (kind : string) (payload : dict) (ss : st.session_state) :
  set_map_filter kind payload ss =
    (<["map_filter" := build kind payload]> ss,
     if bool_decide (current ss ≠ build kind payload)
     then Raise RerunException else Ok tt).
Proof.
  unfold set_map_filter, st.bind, st.session_get, st.session_set, st.rerun, st.ret.
  fold (current ss). fold (build kind payload).
  by destruct (bool_decide (current ss ≠ build kind payload)).
Qed.

Lemma reset_map_run (ss : st.session_state) :
  reset_map ss =
    (<["map_filter" := ALL]> ss,
     if bool_decide (current ss ≠ ALL) then Raise RerunException else Ok tt).
Proof.
  unfold reset_map, st.bind, st.session_get, st.session_set, st.rerun, st.ret.
  fold (current ss).
  by destruct (bool_decide (current ss ≠ ALL)).
Qed.

Lemma current_insert (mf : dict) (ss : st.session_state) :
  current (<["map_filter" := mf]> ss) = mf.
Proof. unfold current. by rewrite lookup_insert_eq. Qed.


(** C5: [reset_map] is [set_map_filter("ALL", {})]; after it the filter is
    [ALL] whatever it was before, and the rerun signal is raised exactly when
    the filter was not already [ALL]. *)
Theorem reset_map_yields_all (ss : st.session_state) :
  reset_map ss = set_map_filter "ALL" ∅ ss
  ∧ current (reset_map ss).1 = ALL
  ∧ ((reset_map ss).2 = Raise RerunException ↔ current ss ≠ ALL)
  ∧ (current ss = ALL → (reset_map ss).2 = Ok tt).
Proof.
  rewrite set_map_filter_run, build_empty, reset_map_run. cbn [fst snd].
  rewrite current_insert. fold ALL.
  split; [done|]. split; [done|].
  case_bool_decide; by split.
Qed.

(** Scenario 4: department X, reset, department X again.  Each call raises
    the rerun signal and the last state is the first one. *)
Example scenario_4 :
  let call_1 := set_map_filter "CODEDE" {["departamento" := VStr "X"]} session_0 in
  let call_2 := reset_map call_1.1 in
  let call_3 := set_map_filter "CODEDE" {["departamento" := VStr "X"]} call_2.1 in
  call_1.2 = Raise RerunException ∧ call_2.2 = Raise RerunException
  ∧ call_3.2 = Raise RerunException ∧ current call_3.1 = current call_1.1
  ∧ (set_map_filter "CODEDE" {["departamento" := VStr "X"]} call_3.1).2 = Ok tt.
Proof. repeat split; vm_compute; reflexivity. Qed.

Lemma lookup_build_kind (kind : string) (payload : dict) :
  payload !! "kind" = None → build kind payload !! "kind" = Some (VStr kind).
Proof.
  intros Hp. unfold build. rewrite lookup_union_r by done. apply lookup_singleton_eq.
Qed.

(** C4, as the code has it: a kind outside the tags that [filtered_points]
    tests is stored like any other, no exception other than the rerun signal
    is raised, and the selection under such a filter is the selection under
    [ALL]. *)
Theorem unknown_kind_falls_through `{!Parsers} (kind : string) (payload : dict)
    (ss : st.session_state) (d : pd.DataFrame) :
  kind ∉ known_kinds → payload !! "kind" = None →
  is_error (set_map_filter kind payload ss).2 = false
  ∧ current (set_map_filter kind payload ss).1 = build kind payload
  ∧ filtered_points d (build kind payload) = filtered_points d ALL.
Proof.
  intros Hkind Hp. rewrite set_map_filter_run. cbn [fst snd]. rewrite current_insert.
  split; [by case_bool_decide|]. split; [done|].
  assert (Hne : ∀ k, k ∈ known_kinds → bool_decide (kind = k) = false).
  { intros k Hk. apply bool_decide_eq_false_2. by intros ->. }
  unfold filtered_points.
  rewrite !(is_str_kind _ _ _ (lookup_build_kind kind payload Hp)).
  rewrite !(is_str_kind ALL "ALL" _) by apply lookup_singleton_eq.
  rewrite !Hne by by_evaluation.
  rewrite (bool_decide_eq_true_2 ("ALL" = "ALL")) by done.
  reflexivity.
Qed.

Lemma unknown_kind_falls_through_witness :
  ("DEPARTAMENTO" ∉ known_kinds)
  ∧ filtered_points (H := decimal_parsers) sample
      (build "DEPARTAMENTO" {["departamento" := VStr "Peten"]})
    = filtered_points (H := decimal_parsers) sample ALL.
Proof.
  assert (Hk : "DEPARTAMENTO" ∉ known_kinds) by by_evaluation.
  split; [exact Hk|].
  refine (proj2 (proj2 (unknown_kind_falls_through (H := decimal_parsers) "DEPARTAMENTO"
            {["departamento" := VStr "Peten"]} session_0 sample Hk _))).
  vm_compute. reflexivity.
Defined.

(** C4 as stated fails: the call with the unknown kind "DEPARTAMENTO" does
    not fail, it stores the filter and asks for a rerun, and the map then
    shows the three located points of every department, as under [ALL]. *)
Lemma unknown_kind_counterexample :
  ("DEPARTAMENTO" ∉ known_kinds)
  ∧ set_map_filter "DEPARTAMENTO" {["departamento" := VStr "Peten"]} session_0
    = (<["map_filter" := {["kind" := VStr "DEPARTAMENTO"; "departamento" := VStr "Peten"]}]> session_0,
       Raise RerunException)
  ∧ is_error (set_map_filter "DEPARTAMENTO" {["departamento" := VStr "Peten"]} session_0).2 = false
  ∧ filtered_points (H := decimal_parsers) sample
      {["kind" := VStr "DEPARTAMENTO"; "departamento" := VStr "Peten"]}
    = Ok {| pd.columns := point_columns; pd.rows := [p_mixco; p_villa_nueva; p_flores] |}
  ∧ filtered_points (H := decimal_parsers) sample ALL
    = Ok {| pd.columns := point_columns; pd.rows := [p_mixco; p_villa_nueva; p_flores] |}.
Proof.
  split; [by_evaluation|]. repeat split; vm_compute; reflexivity.
Qed.

(** ** Missing fields *)

Section missing_fields.
Context `{!Parsers}.
Import pd.

Lemma columns_ensure_numeric cs d : columns (ensure_numeric cs d) = columns d.
Proof.
  unfold ensure_numeric. revert d.
  induction cs as [|c cs IH]; intros d; [done|].
  cbn [foldl]. rewrite IH. by case_bool_decide.
Qed.




Lemma filter_fmap_eq {A} (f : A → A) (P : A → Prop)
    `{!∀ x, Decision (P x)} (l : list A) :
  (∀ x, x ∈ l → P (f x) ↔ P x) → (∀ x, x ∈ l → P x → f x = x) →
  filter P (f <$> l) = filter P l.
Proof.
  induction l as [|x l IH]; intros HP Hf; [done|].
  cbn [fmap list_fmap]. rewrite !filter_cons.
  rewrite IH;
    [|intros y Hy; apply HP; by right|intros y Hy; apply Hf; by right].
  destruct (decide (P x)) as [Hx|Hx].
  - rewrite decide_True by (apply HP; [left|done]). by rewrite Hf by (done || left).
  - by rewrite decide_False by (rewrite HP; [done|left]).
Qed.





End missing_fields.





Lemma reset_map_yields_all_witness :
  current (reset_map (<["map_filter" := {["kind" := VStr "SNIP"; "snip" := num 101]}]> session_0)).1 = ALL
  ∧ (reset_map (<["map_filter" := {["kind" := VStr "SNIP"; "snip" := num 101]}]> session_0)).2
    = Raise RerunException
  ∧ (reset_map session_0).2 = Ok tt.
Proof.
  pose proof (reset_map_yields_all
                (<["map_filter" := {["kind" := VStr "SNIP"; "snip" := num 101]}]> session_0))
    as (_ & Hall & [_ Hrerun] & _).
  pose proof (reset_map_yields_all session_0) as (_ & _ & _ & Hquiet).
  split; [exact Hall|]. split; [apply Hrerun; by_evaluation|].
  apply Hquiet. vm_compute. reflexivity.
Defined.

(** * The rest of the script around the map filter *)

From stdpp Require Import pretty.

(** ** The popups of the map, the table selections and the page *)

Section script.
Context `{!Parsers}.
Import pd.

(** The conversion loop for the three aggregate tables. *)
Definition agg_numeric_columns : list string :=
  ["presupuesto_vigente"; "ejecutado_total"; "no_ejecutado"; "ratio_ejec_agg";
   "score_concentracion_baja_ejec"; "n_inconsistencia_estado_momento";
   "presupuesto_inconsistencia_estado_momento"].

(** Python's truth value, and [a or b]. *)
Definition truthy (v : value) : bool :=
  match v with
  | VNone => false
  | VNaN => true
  | VNum q => negb (bool_decide (q = Q2Qc 0))
  | VStr s => negb (bool_decide (s = ""))
  end.

Definition py_or (a b : value) : value := if truthy a then a else b.

(** [int(v)]. *)
Definition py_int (v : value) : result Z := astype_int v.

(** The last line of the popup that [render_map] writes for a row:
    ["Sí" if int(r.get("flag_inconsistencia_estado_momento", 0) or 0) == 1
    else "No"]. *)
Definition popup_inconsistencia (r : row) : result string :=
  z ← py_int (py_or (get_default r "flag_inconsistencia_estado_momento" (num 0)) (num 0));
  Ok (if bool_decide (z = 1%Z) then "Sí" else "No").

(** The popups that the loop of [render_map] builds, row after row of
    [df_points.head(max_markers)], up to the first one that raises. *)
Definition popups (df_points : DataFrame) : result (list string) :=
  traverse popup_inconsistencia (rows (head max_markers df_points)).

(** A pure computation inside the script. *)
Definition eval {A} (m : result A) : st.script A := λ ss, (ss, m).

(** [row[key]] on the row that [table.iloc[r]] gives. *)
Definition row_getitem (key : string) (r : row) : result value :=
  match r !! key with
  | Some v => Ok v
  | None => Raise (KeyError key)
  end.

(** The selection blocks of the tabs.  [sel] is the row [table.iloc[r]] at
    the first selected position [r] of the table that the block displays,
    [None] when no row is selected. *)
Definition on_select_estado (sel : option row) : st.script unit :=
  match sel with
  | None => st.ret tt
  | Some r =>
      (estado_sel <- eval (row_getitem "estado_auditoria" r);;
       set_map_filter "ESTADO" {["estado_auditoria" := estado_sel]})%script
  end.

Definition on_select_snip (sel : option row) : st.script unit :=
  match sel with
  | None => st.ret tt
  | Some r =>
      (v <- eval (row_getitem "snip" r);;
       snip_sel <- eval (py_int v);;
       set_map_filter "SNIP" {["snip" := num snip_sel]})%script
  end.

Definition on_select_municipio (sel : option row) : st.script unit :=
  match sel with
  | None => st.ret tt
  | Some r =>
      (dep <- eval (row_getitem "departamento" r);;
       mu <- eval (row_getitem "municipio" r);;
       set_map_filter "MUNICIPIO" (<["municipio" := mu]> {["departamento" := dep]}))%script
  end.

Definition on_select_codede (sel : option row) : st.script unit :=
  match sel with
  | None => st.ret tt
  | Some r =>
      (dep <- eval (row_getitem "departamento" r);;
       set_map_filter "CODEDE" {["departamento" := dep]})%script
  end.

Definition on_select_entidad (sel : option row) : st.script unit :=
  match sel with
  | None => st.ret tt
  | Some r =>
      (ee <- eval (row_getitem "entidad_ejecutora" r);;
       set_map_filter "ENTIDAD" {["entidad_ejecutora" := ee]})%script
  end.

(** [st.session_state[key]]. *)
Definition session_getitem (key : string) : st.script dict := λ ss,
  match ss !! key with
  | Some v => (ss, Ok v)
  | None => (ss, Raise (KeyError key))
  end.

(** [render_map] with the popups it builds on the way: on a frame that is
    not empty the call raises what the first failing popup raises, before
    anything is written.  This is the whole of the call for a frame whose
    coordinates are numbers, as the frames of [filtered_points] are. *)
Definition render_map_popups (df_points : DataFrame) (title : string) : result (list st.element) :=
  if empty df_points then Ok (render_map df_points title)
  else _ ← popups df_points; Ok (render_map df_points title).

(** The map above the tabs: the points for the filter of the session, and
    what [render_map] writes for them. *)
Definition mapa (snip : DataFrame) : st.script (list st.element) :=
  (mf <- session_getitem "map_filter";;
   pts <- eval (filtered_points snip mf);;
   eval (render_map_popups pts "Mapa de proyectos (según selección en tablas)"))%script.

(** The columns that the variant of a filter reads, in the order in which
    [filtered_points] reads them. *)
Definition needs (mf : dict) : list string :=
  let kind := get_default mf "kind" (VStr "ALL") in
  if is_str kind "ALL" then []
  else if is_str kind "SNIP" then ["snip"]
  else if is_str kind "MUNICIPIO" then ["departamento"; "municipio"]
  else if is_str kind "CODEDE" then ["departamento"]
  else if is_str kind "ENTIDAD" then ["entidad_ejecutora"]
  else if is_str kind "ESTADO" then ["estado_auditoria"]
  else if is_str kind "FLAG_INCONSISTENCIA" then ["flag_inconsistencia_estado_momento"]
  else [].

(** The flags that the flag variant converts with [astype(int)]; no other
    variant converts anything. *)
Definition casts (mf : dict) (l : list row) : list value :=
  let kind := get_default mf "kind" (VStr "ALL") in
  if is_str kind "ALL" then []
  else if is_str kind "SNIP" then []
  else if is_str kind "MUNICIPIO" then []
  else if is_str kind "CODEDE" then []
  else if is_str kind "ENTIDAD" then []
  else if is_str kind "ESTADO" then []
  else if is_str kind "FLAG_INCONSISTENCIA" then
    fillna0 ∘ cell "flag_inconsistencia_estado_momento" <$> l
  else [].

End script.

(** ** [filtered_points] in one equation *)

Section equation.
Context `{!Parsers}.
Import pd.

Lemma traverse_Raise {A B} (f : A → result B) l e :
  traverse f l = Raise e → ∃ x, x ∈ l ∧ f x = Raise e.
Proof.
  induction l as [|x l IH]; cbn; [done|].
  destruct (f x) as [y|e'] eqn:Hx; cbn.
  - destruct (traverse f l) as [ys|e'] eqn:Hl; cbn; [done|].
    intros [= ->]. destruct IH as (x' & ? & ?); [done|].
    exists x'. split; [by right|done].
  - intros [= ->]. exists x. split; [left|done].
Qed.

Lemma traverse_Ok_all {A B} (f : A → result B) l ys :
  traverse f l = Ok ys → ∀ x, x ∈ l → ∃ y, f x = Ok y.
Proof.
  revert ys. induction l as [|x l IH]; intros ys; cbn.
  - intros _ x' Hx'. by apply elem_of_nil in Hx'.
  - destruct (f x) as [y|e] eqn:Hx; cbn; [|done].
    destruct (traverse f l) as [ys'|e] eqn:Hl; cbn; [|done].
    intros _ x' [->|Hx']%elem_of_cons; [by eexists|]. by eapply IH.
Qed.

Lemma traverse_is_Raise {A B} (f : A → result B) l x e :
  x ∈ l → f x = Raise e → ∃ e', traverse f l = Raise e'.
Proof.
  induction l as [|x' l IH]; intros Hx Hfx; [by apply elem_of_nil in Hx|].
  cbn. apply elem_of_cons in Hx as [->|Hx].
  - rewrite Hfx. by eexists.
  - destruct (f x') as [y|e']; cbn; [|by eexists].
    destruct (IH Hx Hfx) as [e' ->]. by eexists.
Qed.

(** On a frame that has both coordinate columns, [filtered_points] raises
    [KeyError] for the first column of the variant that the frame lacks;
    otherwise it raises what the conversion of the flags raises; otherwise
    it returns the coordinate-bearing rows that the variant selects. *)
Lemma filtered_points_eq d mf :
  "latitud" ∈ columns d → "longitud" ∈ columns d →
  filtered_points d mf =
    match List.find (λ c, negb (bool_decide (c ∈ columns d))) (needs mf) with
    | Some c => Raise (KeyError c)
    | None =>
        _ ← traverse astype_int (casts mf (rows (with_coords d)));
        Ok {| columns := columns d;
              rows := filter (λ r, selects mf r = true) (rows (with_coords d)) |}
    end.
Proof.
  intros Hla Hlo. unfold filtered_points, selects, needs, casts.
  rewrite !bool_decide_eq_true_2 by done. cbn [andb negb].
  change (dropna _ _) with (with_coords d).
  set (d' := with_coords d).
  set (kind := get_default mf "kind" (VStr "ALL")).
  assert (Hall : d' = {| columns := columns d; rows := filter (λ _ : row, true = true) (rows d') |}).
  { rewrite filter_all by done. reflexivity. }
  unfold getitem. change (columns d') with (columns d).
  destruct (is_str kind "ALL"); [by rewrite Hall at 1|].
  destruct (is_str kind "SNIP").
  { cbn [List.find]. case_bool_decide; cbn [negb mbind result_bind traverse]; [|done].
    by rewrite series_eq_cells, getitem_mask_cells. }
  destruct (is_str kind "MUNICIPIO").
  { cbn [List.find]. repeat case_bool_decide; cbn [negb mbind result_bind traverse]; try done.
    by rewrite !series_eq_cells, mask_and_fmap, getitem_mask_cells. }
  destruct (is_str kind "CODEDE").
  { cbn [List.find]. case_bool_decide; cbn [negb mbind result_bind traverse]; [|done].
    by rewrite series_eq_cells, getitem_mask_cells. }
  destruct (is_str kind "ENTIDAD").
  { cbn [List.find]. case_bool_decide; cbn [negb mbind result_bind traverse]; [|done].
    by rewrite series_eq_cells, getitem_mask_cells. }
  destruct (is_str kind "ESTADO").
  { cbn [List.find]. case_bool_decide; cbn [negb mbind result_bind traverse]; [|done].
    by rewrite series_eq_cells, getitem_mask_cells. }
  destruct (is_str kind "FLAG_INCONSISTENCIA"); [|by rewrite Hall at 1].
  cbn [List.find]. case_bool_decide; cbn [negb mbind result_bind]; [|done].
  rewrite <- list_fmap_compose.
  destruct (traverse astype_int _) as [ints|e] eqn:Hints; [|done].
  cbn [mbind result_bind].
  rewrite (traverse_Ok_fmap _ _ false _ _ Hints), <- list_fmap_compose.
  by rewrite <- (getitem_mask_cells (λ r, match astype_int (fillna0 (cell _ r)) with
                                          | Ok z => bool_decide (z = 1%Z)
                                          | Raise _ => false end) d').
Qed.

End equation.

(** ** Exceptions of the selection *)

(** Evaluates the tests on the kind of a filter whose kind is known. *)
Ltac kind_cases Hkind :=
  rewrite ?(is_str_kind _ _ _ Hkind);
  repeat (rewrite bool_decide_eq_false_2 by done);
  rewrite ?bool_decide_eq_true_2 by done; cbv iota.

Lemma find_Some_split {A} (p : A → bool) (l : list A) (x : A) :
  List.find p l = Some x ↔
  ∃ before after, l = (before ++ x :: after)%list ∧ p x = true ∧ ∀ y, y ∈ before → p y = false.
Proof.
  induction l as [|a l IH]; cbn.
  - split; [done|]. intros (before & after & Hl & _). by destruct before.
  - destruct (p a) eqn:Ha.
    + split.
      * intros [= ->]. exists [], l. split; [done|]. split; [done|].
        intros y Hy. by apply elem_of_nil in Hy.
      * intros ([|b before] & after & Hl & Hx & Hb).
        -- by injection Hl as -> _.
        -- injection Hl as -> _. rewrite Hb in Ha; [done|left].
    + rewrite IH. split.
      * intros (before & after & -> & Hx & Hb). exists (a :: before), after.
        split; [done|]. split; [done|].
        intros y [->|Hy]%elem_of_cons; [done|by apply Hb].
      * intros ([|b before] & after & Hl & Hx & Hb).
        -- injection Hl as -> _. congruence.
        -- injection Hl as -> ->. exists before, after. split; [done|]. split; [done|].
           intros y Hy. apply Hb. by right.
Qed.

Lemma astype_int_Raise `{!Parsers} v e :
  pd.astype_int v = Raise e →
  (e = ValueError ∧ (v = VNaN ∨ ∃ s, v = VStr s ∧ str_to_int s = None))
  ∨ (e = TypeError ∧ v = VNone).
Proof.
  destruct v as [| |q|s]; cbn; try done.
  - intros [= <-]. by right.
  - intros [= <-]. left. split; [done|by left].
  - destruct (str_to_int s) eqn:Hs; [done|]. intros [= <-].
    left. split; [done|]. right. by exists s.
Qed.

(** X1: on a frame that has both coordinate columns, [filtered_points]
    raises [KeyError] for a column exactly when the variant of the filter
    reads that column, the frame lacks it, and the frame has the columns that
    the variant reads before it. *)
Theorem filtered_points_KeyError `{!Parsers} (d : pd.DataFrame) (mf : dict) (c : string) :
  "latitud" ∈ pd.columns d → "longitud" ∈ pd.columns d →
  filtered_points d mf = Raise (KeyError c) ↔
  ∃ before after, needs mf = (before ++ c :: after)%list
    ∧ (c ∉ pd.columns d) ∧ ∀ c', c' ∈ before → c' ∈ pd.columns d.
Proof.
  intros Hla Hlo. rewrite filtered_points_eq by done.
  destruct (List.find _ (needs mf)) as [c0|] eqn:Hfind.
  - apply find_Some_split in Hfind as Hsplit.
    destruct Hsplit as (before & after & Hneeds & Hc0 & Hbefore).
    apply negb_true_iff, bool_decide_eq_false_1 in Hc0.
    split.
    + intros [= <-]. exists before, after. split; [done|]. split; [done|].
      intros c' Hc'. apply Hbefore in Hc'. by apply negb_false_iff, bool_decide_eq_true_1 in Hc'.
    + intros (before' & after' & Hneeds' & Hc & Hbefore').
      assert (List.find (λ c, negb (bool_decide (c ∈ pd.columns d))) (needs mf) = Some c) as Hfind'.
      { apply find_Some_split. exists before', after'. split; [done|]. split.
        - by apply negb_true_iff, bool_decide_eq_false_2.
        - intros y Hy. by apply negb_false_iff, bool_decide_eq_true_2, Hbefore'. }
      congruence.
  - split.
    + destruct (traverse pd.astype_int _) as [ints|e] eqn:Hcast; cbn; [done|].
      intros [= ->]. apply traverse_Raise in Hcast as (v & _ & Hv).
      by apply astype_int_Raise in Hv as [[? _]|[? _]].
    + intros (before & after & Hneeds & Hc & Hbefore).
      assert (List.find (λ c, negb (bool_decide (c ∈ pd.columns d))) (needs mf) = Some c) as Hfind'.
      { apply find_Some_split. exists before, after. split; [done|]. split.
        - by apply negb_true_iff, bool_decide_eq_false_2.
        - intros y Hy. by apply negb_false_iff, bool_decide_eq_true_2, Hbefore. }
      congruence.
Qed.

(** A frame with the coordinates but without the municipality column. *)
Definition sample_no_municipio : pd.DataFrame :=
  {| pd.columns := ["snip"; "departamento"; "latitud"; "longitud"];
     pd.rows := [list_to_map [("snip", num 108); ("departamento", VStr "Peten");
                              ("latitud", decimal 1693 100); ("longitud", decimal (-8989) 100)]] |}.

Lemma filtered_points_KeyError_witness :
  filtered_points (H := decimal_parsers) sample_no_municipio
    {["kind" := VStr "MUNICIPIO"; "departamento" := VStr "Peten"; "municipio" := VStr "Flores"]}
  = Raise (KeyError "municipio").
Proof.
  apply (filtered_points_KeyError (H := decimal_parsers)).
  - by_evaluation.
  - by_evaluation.
  - exists ["departamento"], []. split; [vm_compute; reflexivity|].
    split; [by_evaluation|]. apply Forall_forall. by_evaluation.
Defined.




(** ** What a filter selects *)

(** The variants that compare one column with one entry of the filter:
    the kind, and the name of the column and of the entry. *)
Definition single_key_variants : list (string * string) :=
  [("SNIP", "snip"); ("CODEDE", "departamento");
   ("ENTIDAD", "entidad_ejecutora"); ("ESTADO", "estado_auditoria")].

Lemma eq_scalar_na (x v : value) : pd.isna v = true → pd.eq_scalar x v = false.
Proof. by destruct x, v. Qed.

Lemma filter_none {A} (P : A → Prop) `{!∀ x, Decision (P x)} (l : list A) :
  (∀ x, x ∈ l → ¬ P x) → filter P l = [].
Proof.
  induction l as [|x l IH]; intros Hl; [done|].
  rewrite filter_cons_False by (apply Hl; left).
  apply IH. intros y Hy. apply Hl. by right.
Qed.

(** The selection of a variant that compares one column with one entry. *)
Lemma filtered_points_single_key `{!Parsers} (d : pd.DataFrame) (mf : dict) (k key : string) :
  "latitud" ∈ pd.columns d → "longitud" ∈ pd.columns d →
  (k, key) ∈ single_key_variants → mf !! "kind" = Some (VStr k) → key ∈ pd.columns d →
  filtered_points d mf =
    Ok {| pd.columns := pd.columns d;
          pd.rows := filter (λ r, pd.eq_scalar (pd.cell key r) (get mf key) = true)
                            (pd.rows (with_coords d)) |}.
Proof.
  intros Hla Hlo Hk Hkind Hkey. rewrite filtered_points_eq by done.
  unfold single_key_variants in Hk.
  repeat (apply elem_of_cons in Hk as [[= -> ->]|Hk]); [..|by apply elem_of_nil in Hk];
    unfold needs, casts, selects; kind_cases Hkind; cbn [List.find];
    rewrite bool_decide_eq_true_2 by done; reflexivity.
Qed.

(** X3: a variant that compares a column with an entry of the filter selects
    nothing, and raises nothing, when the entry is absent from the filter or
    is [None] or NaN; so does the municipality variant when one of its two
    entries is. *)
Theorem missing_entry_selects_nothing `{!Parsers} (d : pd.DataFrame) (mf : dict) :
  "latitud" ∈ pd.columns d → "longitud" ∈ pd.columns d →
  (∀ k key, (k, key) ∈ single_key_variants → mf !! "kind" = Some (VStr k) →
     key ∈ pd.columns d → pd.isna (get mf key) = true →
     filtered_points d mf = Ok {| pd.columns := pd.columns d; pd.rows := [] |})
  ∧ (mf !! "kind" = Some (VStr "MUNICIPIO") →
     "departamento" ∈ pd.columns d → "municipio" ∈ pd.columns d →
     pd.isna (get mf "departamento") = true ∨ pd.isna (get mf "municipio") = true →
     filtered_points d mf = Ok {| pd.columns := pd.columns d; pd.rows := [] |}).
Proof.
  intros Hla Hlo. split.
  - intros k key Hk Hkind Hkey Hna.
    rewrite (filtered_points_single_key d mf k key) by done.
    f_equal. f_equal. apply filter_none. intros r _. by rewrite eq_scalar_na.
  - intros Hkind Hdep Hmun Hna. rewrite filtered_points_eq by done.
    unfold needs, casts, selects. kind_cases Hkind. cbn [List.find].
    rewrite !bool_decide_eq_true_2 by done. cbn [negb List.find traverse mbind result_bind].
    f_equal. f_equal. apply filter_none. intros r _.
    destruct Hna as [Hna|Hna]; rewrite (eq_scalar_na _ _ Hna);
      [done|by rewrite andb_false_r].
Qed.

Lemma missing_entry_selects_nothing_witness :
  filtered_points (H := decimal_parsers) sample {["kind" := VStr "ESTADO"; "estado_auditoria" := VNaN]}
    = Ok {| pd.columns := point_columns; pd.rows := [] |}
  ∧ filtered_points (H := decimal_parsers) sample {["kind" := VStr "SNIP"]}
    = Ok {| pd.columns := point_columns; pd.rows := [] |}.
Proof.
  split.
  - refine (proj1 (missing_entry_selects_nothing (H := decimal_parsers) sample _ _ _)
              "ESTADO" "estado_auditoria" _ _ _ _); by_evaluation.
  - refine (proj1 (missing_entry_selects_nothing (H := decimal_parsers) sample _ _ _)
              "SNIP" "snip" _ _ _ _); by_evaluation.
Defined.

(** X4: the municipality filter refines the department filter: for the same
    department, what it returns is what the department filter returns, cut
    down to the rows of the municipality, in the same order. *)
Theorem municipio_refines_codede `{!Parsers} (d : pd.DataFrame) (mf_mun mf_dep : dict)
    (out_mun out_dep : pd.DataFrame) :
  mf_mun !! "kind" = Some (VStr "MUNICIPIO") →
  mf_dep !! "kind" = Some (VStr "CODEDE") →
  get mf_mun "departamento" = get mf_dep "departamento" →
  filtered_points d mf_mun = Ok out_mun →
  filtered_points d mf_dep = Ok out_dep →
  pd.rows out_mun =
    filter (λ r, pd.eq_scalar (pd.cell "municipio" r) (get mf_mun "municipio") = true)
           (pd.rows out_dep)
  ∧ pd.rows out_mun `sublist_of` pd.rows out_dep.
Proof.
  intros Hmun Hdep Heq Hrun_mun Hrun_dep.
  assert (pd.rows out_mun =
    filter (λ r, pd.eq_scalar (pd.cell "municipio" r) (get mf_mun "municipio") = true)
           (pd.rows out_dep)) as Hrows.
  { destruct (decide ("latitud" ∈ pd.columns d ∧ "longitud" ∈ pd.columns d)) as [[Hla Hlo]|Hc].
    - apply filtered_points_Ok in Hrun_mun as ->; [|done..].
      apply filtered_points_Ok in Hrun_dep as ->; [|done..].
      cbn [pd.rows]. unfold selects. kind_cases Hmun. kind_cases Hdep.
      rewrite list_filter_filter. apply list_filter_iff. intros r.
      rewrite Heq, andb_true_iff. tauto.
    - rewrite filtered_points_no_columns in Hrun_mun, Hrun_dep by done.
      by injection Hrun_mun as <-; injection Hrun_dep as <-. }
  split; [exact Hrows|]. rewrite Hrows. apply sublist_filter.
Qed.

Lemma municipio_refines_codede_witness :
  filtered_points (H := decimal_parsers) sample
    {["kind" := VStr "MUNICIPIO"; "departamento" := VStr "Guatemala"; "municipio" := VStr "Mixco"]}
    = Ok {| pd.columns := point_columns; pd.rows := [p_mixco] |}
  ∧ [p_mixco] `sublist_of` [p_mixco; p_villa_nueva].
Proof.
  assert (Hmun : filtered_points (H := decimal_parsers) sample
            {["kind" := VStr "MUNICIPIO"; "departamento" := VStr "Guatemala"; "municipio" := VStr "Mixco"]}
            = Ok {| pd.columns := point_columns; pd.rows := [p_mixco] |}).
  { vm_compute. reflexivity. }
  assert (Hdep : filtered_points (H := decimal_parsers) sample
            {["kind" := VStr "CODEDE"; "departamento" := VStr "Guatemala"]}
            = Ok {| pd.columns := point_columns; pd.rows := [p_mixco; p_villa_nueva] |}).
  { vm_compute. reflexivity. }
  split; [exact Hmun|].
  refine (proj2 (municipio_refines_codede (H := decimal_parsers) sample _ _ _ _ _ _ _ Hmun Hdep));
    vm_compute; reflexivity.
Defined.

Lemma with_coords_rows_fixed `{!Parsers} (d : pd.DataFrame) (r : row) :
  r ∈ pd.rows (with_coords d) → numeric_coords r = r ∧ has_coords r = true.
Proof.
  rewrite rows_with_coords, list_elem_of_filter, list_elem_of_fmap.
  intros [? (r0 & -> & _)]. split; [apply numeric_coords_idemp|done].
Qed.

Lemma with_coords_fixed `{!Parsers} (d : pd.DataFrame) :
  (∀ r, r ∈ pd.rows d → numeric_coords r = r ∧ has_coords r = true) →
  pd.rows (with_coords d) = pd.rows d.
Proof.
  intros Hd. rewrite rows_with_coords.
  rewrite (list_fmap_ext numeric_coords id (pd.rows d)) by
    (intros ? r ?%list_elem_of_lookup_2; by apply Hd).
  rewrite list_fmap_id. apply filter_all. intros r ?. by apply Hd.
Qed.

Lemma casts_mono `{!Parsers} (mf : dict) (l' l : list row) (v : value) :
  l' ⊆ l → v ∈ casts mf l' → v ∈ casts mf l.
Proof.
  intros Hsub. unfold casts. repeat case_match; try done.
  rewrite !list_elem_of_fmap. intros (r & -> & Hr). exists r. split; [done|by apply Hsub].
Qed.

(** X5: selecting again from what [filtered_points] returned, with the same
    filter, returns the same frame: the result is a fixed point of the
    selection, and the second call raises nothing. *)
Theorem filtered_points_idempotent `{!Parsers} (d : pd.DataFrame) (mf : dict) (out : pd.DataFrame) :
  filtered_points d mf = Ok out → filtered_points out mf = Ok out.
Proof.
  intros Hrun.
  destruct (decide ("latitud" ∈ pd.columns d ∧ "longitud" ∈ pd.columns d)) as [[Hla Hlo]|Hc].
  - pose proof (filtered_points_Ok _ _ _ Hla Hlo Hrun) as ->.
    rewrite filtered_points_eq in Hrun by done.
    destruct (List.find _ (needs mf)) as [c|] eqn:Hfind; [done|].
    destruct (traverse pd.astype_int _) as [ints|e] eqn:Hcast; [|done]. clear Hrun.
    set (l := pd.rows (with_coords d)) in *.
    set (out := {| pd.columns := pd.columns d;
                   pd.rows := filter (λ r, selects mf r = true) l |}).
    assert (Hfixed : pd.rows (with_coords out) = pd.rows out).
    { apply with_coords_fixed. intros r [_ Hr]%list_elem_of_filter.
      by apply (with_coords_rows_fixed d). }
    rewrite (filtered_points_eq out) by done.
    change (pd.columns out) with (pd.columns d). rewrite Hfind, Hfixed.
    destruct (traverse_returns pd.astype_int (casts mf (pd.rows out))) as [ints' ->].
    { intros v Hv. eapply (traverse_Ok_all _ _ _ Hcast), casts_mono; [|exact Hv].
      intros r [_ Hr]%list_elem_of_filter. exact Hr. }
    cbn [mbind result_bind]. f_equal. apply DataFrame_eq; [done|]. cbn [pd.rows].
    apply filter_all. by intros r [Hsel _]%list_elem_of_filter.
  - rewrite filtered_points_no_columns in Hrun by done. injection Hrun as <-.
    by rewrite filtered_points_no_columns.
Qed.

Lemma filtered_points_idempotent_witness :
  filtered_points (H := decimal_parsers)
    {| pd.columns := point_columns; pd.rows := [p_mixco; p_villa_nueva] |}
    {["kind" := VStr "CODEDE"; "departamento" := VStr "Guatemala"]}
  = Ok {| pd.columns := point_columns; pd.rows := [p_mixco; p_villa_nueva] |}.
Proof.
  apply (filtered_points_idempotent (H := decimal_parsers) sample).
  vm_compute. reflexivity.
Defined.

(** ** The conversion after the load *)

Section load.
Context `{!Parsers}.
Import pd.

(** What [ensure_numeric] does to one row of a frame with columns [cols]. *)
Definition numeric_row (cols cs : list string) (r : row) : row :=
  foldl (λ r c, if bool_decide (c ∈ cols) then <[c := to_numeric (cell c r)]> r else r) r cs.

Lemma rows_ensure_numeric cs d :
  rows (ensure_numeric cs d) = numeric_row (columns d) cs <$> rows d.
Proof.
  unfold ensure_numeric, numeric_row. revert d.
  induction cs as [|c cs IH]; intros d; cbn [foldl].
  - by rewrite list_fmap_id.
  - rewrite IH. case_bool_decide; [|done].
    cbn [setitem_map columns rows]. rewrite <- list_fmap_compose.
    by apply list_fmap_ext.
Qed.

Lemma lookup_numeric_row cols cs r k :
  numeric_row cols cs r !! k =
    if bool_decide (k ∈ cs ∧ k ∈ cols) then Some (to_numeric (cell k r)) else r !! k.
Proof.
  unfold numeric_row. revert r.
  induction cs as [|c cs IH]; intros r; cbn [foldl].
  - rewrite bool_decide_eq_false_2; [done|]. intros [[]%elem_of_nil _].
  - rewrite IH. destruct (decide (k ∈ cols)) as [Hk|Hk].
    2:{ rewrite (bool_decide_eq_false_2 (k ∈ cs ∧ _)) by tauto.
        rewrite (bool_decide_eq_false_2 (k ∈ c :: cs ∧ _)) by tauto.
        clear IH. case_bool_decide; [|done]. apply lookup_insert_ne. congruence. }
    destruct (decide (k = c)) as [->|Hne].
    + rewrite (bool_decide_eq_true_2 (c ∈ cols)) by done.
      rewrite (bool_decide_eq_true_2 (c ∈ c :: cs ∧ _)) by (split; [left|done]).
      unfold cell at 1. rewrite lookup_insert_eq. cbn. rewrite to_numeric_idemp.
      by case_bool_decide.
    + assert (Hcell : ∀ r', (if bool_decide (c ∈ cols)
                             then <[c := to_numeric (cell c r)]> r else r) = r' →
                cell k r' = cell k r ∧ r' !! k = r !! k).
      { intros r' <-. unfold cell. destruct (bool_decide (c ∈ cols)); [|done].
        by rewrite lookup_insert_ne. }
      destruct (Hcell _ eq_refl) as [-> ->].
      apply (f_equal (λ b : bool, if b then _ else _)).
      apply bool_decide_ext. rewrite elem_of_cons.
      split; [tauto|]. intros [[?|?] ?]; [congruence|tauto].
Qed.

Lemma numeric_row_idemp cols cs r :
  numeric_row cols cs (numeric_row cols cs r) = numeric_row cols cs r.
Proof.
  apply map_eq. intros k. rewrite !lookup_numeric_row.
  case_bool_decide; [|done]. unfold cell at 1.
  rewrite lookup_numeric_row, bool_decide_eq_true_2 by done. cbn.
  by rewrite to_numeric_idemp.
Qed.

Lemma ensure_numeric_cell cs d c r :
  c ∈ cs → c ∈ columns d → r ∈ rows (ensure_numeric cs d) →
  r !! c = Some VNaN ∨ ∃ q, r !! c = Some (VNum q).
Proof.
  intros Hc Hcol. rewrite rows_ensure_numeric, list_elem_of_fmap.
  intros (r0 & -> & _). rewrite lookup_numeric_row, bool_decide_eq_true_2 by done.
  destruct (cell c r0) as [| |q|s]; cbn; [by left..|by right; eexists|].
  destruct (str_to_float s); [by right; eexists|by left].
Qed.

End load.

(** X6: after [ensure_numeric], every listed column that the frame has holds
    in each row what [pd.to_numeric] makes of the cell that was there, so a
    number or NaN; every other cell is as it was; and converting a second
    time changes nothing. *)
Theorem ensure_numeric_converts `{!Parsers} (cs : list string) (d : pd.DataFrame) :
  (∀ c, c ∈ cs → c ∈ pd.columns d →
     (λ r, r !! c) <$> pd.rows (ensure_numeric cs d)
     = (λ r, Some (pd.to_numeric (pd.cell c r))) <$> pd.rows d)
  ∧ (∀ c r, c ∈ cs → c ∈ pd.columns d → r ∈ pd.rows (ensure_numeric cs d) →
       r !! c = Some VNaN ∨ ∃ q, r !! c = Some (VNum q))
  ∧ (∀ c, c ∉ cs ∨ c ∉ pd.columns d →
       (λ r, r !! c) <$> pd.rows (ensure_numeric cs d) = (λ r, r !! c) <$> pd.rows d)
  ∧ ensure_numeric cs (ensure_numeric cs d) = ensure_numeric cs d.
Proof.
  split; [|split; [|split]].
  - intros c Hc Hcol. rewrite rows_ensure_numeric, <- list_fmap_compose.
    apply list_fmap_ext. intros i r _. cbn.
    by rewrite lookup_numeric_row, bool_decide_eq_true_2.
  - apply ensure_numeric_cell.
  - intros c Hc. rewrite rows_ensure_numeric, <- list_fmap_compose.
    apply list_fmap_ext. intros i r _. cbn.
    rewrite lookup_numeric_row, bool_decide_eq_false_2; [done|tauto].
  - apply DataFrame_eq; [by rewrite !columns_ensure_numeric|].
    rewrite (rows_ensure_numeric cs (ensure_numeric cs d)), columns_ensure_numeric.
    rewrite rows_ensure_numeric, <- list_fmap_compose.
    apply list_fmap_ext. intros i r _. cbn. apply numeric_row_idemp.
Qed.

(** A project table as read from a file in which the flag and the budget
    came as text. *)
Definition sample_text_flag : pd.DataFrame :=
  {| pd.columns := ["snip"; "presupuesto_actual_vigente"; "flag_inconsistencia_estado_momento";
                    "latitud"; "longitud"];
     pd.rows :=
       [list_to_map [("snip", num 111); ("presupuesto_actual_vigente", VStr "1250.5");
                     ("flag_inconsistencia_estado_momento", VStr "1");
                     ("latitud", decimal 1463 100); ("longitud", decimal (-9060) 100)];
        list_to_map [("snip", num 112); ("presupuesto_actual_vigente", VStr "s/d");
                     ("flag_inconsistencia_estado_momento", VStr "si");
                     ("latitud", decimal 1452 100); ("longitud", decimal (-9058) 100)]] |}.

Lemma ensure_numeric_converts_witness :
  (λ r, r !! "flag_inconsistencia_estado_momento")
    <$> pd.rows (ensure_numeric (H := decimal_parsers) snip_numeric_columns sample_text_flag)
  = (λ r, Some (pd.to_numeric (H := decimal_parsers) (pd.cell "flag_inconsistencia_estado_momento" r)))
    <$> pd.rows sample_text_flag
  ∧ (λ r : row, r !! "snip")
      <$> pd.rows (ensure_numeric (H := decimal_parsers) snip_numeric_columns sample_text_flag)
    = [Some (num 111); Some (num 112)].
Proof.
  pose proof (ensure_numeric_converts (H := decimal_parsers) snip_numeric_columns sample_text_flag)
    as (Hconv & _ & Hother & _).
  split.
  - apply Hconv; by_evaluation.
  - rewrite Hother; [reflexivity|]. left. by_evaluation.
Defined.

(** X7: on a frame that went through the conversion of the load, the flag
    filter raises nothing: with the coordinate columns and the flag column
    there, it returns, whatever texts the flag column held in the file
    (texts that pandas reads as an infinity aside: the values of the model
    are finite). *)
Theorem flag_filter_after_load `{!Parsers} (d : pd.DataFrame) (mf : dict) :
  "latitud" ∈ pd.columns d → "longitud" ∈ pd.columns d →
  "flag_inconsistencia_estado_momento" ∈ pd.columns d →
  mf !! "kind" = Some (VStr "FLAG_INCONSISTENCIA") →
  filtered_points (ensure_numeric snip_numeric_columns d) mf =
    Ok {| pd.columns := pd.columns d;
          pd.rows := filter (λ r, selects mf r = true)
                            (pd.rows (with_coords (ensure_numeric snip_numeric_columns d))) |}.
Proof.
  intros Hla Hlo Hfl Hkind.
  set (d' := ensure_numeric snip_numeric_columns d).
  assert (Hcols : pd.columns d' = pd.columns d) by apply columns_ensure_numeric.
  rewrite filtered_points_eq by (by rewrite Hcols). rewrite Hcols.
  unfold needs, casts. kind_cases Hkind. cbn [List.find].
  rewrite bool_decide_eq_true_2 by done. cbn [negb].
  destruct (traverse_returns pd.astype_int
              (pd.fillna0 ∘ pd.cell "flag_inconsistencia_estado_momento" <$> pd.rows (with_coords d')))
    as [ints ->]; [|done].
  intros v (r & -> & Hr)%list_elem_of_fmap.
  rewrite rows_with_coords, list_elem_of_filter, list_elem_of_fmap in Hr.
  destruct Hr as [_ (r0 & -> & Hr0)]. cbn.
  rewrite cell_numeric_coords_other by done.
  destruct (ensure_numeric_cell snip_numeric_columns d
              "flag_inconsistencia_estado_momento" r0) as [Hc|[q Hc]];
    [by_evaluation|done|done|..]; unfold pd.cell; rewrite Hc; by eexists.
Qed.

Lemma flag_filter_after_load_witness :
  filtered_points (H := decimal_parsers) sample_text_flag {["kind" := VStr "FLAG_INCONSISTENCIA"]}
    = Raise ValueError
  ∧ ∃ out, filtered_points (H := decimal_parsers)
             (ensure_numeric (H := decimal_parsers) snip_numeric_columns sample_text_flag)
             {["kind" := VStr "FLAG_INCONSISTENCIA"]} = Ok out
           ∧ length (pd.rows out) = 1.
Proof.
  split; [vm_compute; reflexivity|].
  eexists. split.
  - apply (flag_filter_after_load (H := decimal_parsers)); by_evaluation.
  - vm_compute. reflexivity.
Defined.

(** ** The session across calls *)

(** X8: [ensure_state] never raises; after it the session holds a filter,
    the one it held before if there was one and [ALL] otherwise; a session
    that holds a filter is left exactly as it is, so running it again
    changes nothing. *)
Theorem ensure_state_keeps_filter (ss : st.session_state) :
  (ensure_state ss).2 = Ok tt
  ∧ (ensure_state ss).1 !! "map_filter" = Some (current ss)
  ∧ (is_Some (ss !! "map_filter") → (ensure_state ss).1 = ss)
  ∧ (ss !! "map_filter" = None → (ensure_state ss).1 = <["map_filter" := ALL]> ss)
  ∧ ensure_state (ensure_state ss).1 = ((ensure_state ss).1, Ok tt).
Proof.
  unfold ensure_state, st.bind, st.session_contains, st.session_set, st.ret, current.
  destruct (ss !! "map_filter") as [mf|] eqn:Hmf.
  - rewrite (bool_decide_eq_true_2 (is_Some (Some mf))) by (by eexists). cbn.
    rewrite Hmf. rewrite (bool_decide_eq_true_2 (is_Some (Some mf))) by (by eexists). cbn.
    by repeat split.
  - rewrite (bool_decide_eq_false_2 (is_Some None)) by (by intros [??]). cbn.
    rewrite lookup_insert_eq.
    rewrite (bool_decide_eq_true_2 (is_Some (Some _))) by (by eexists). cbn.
    repeat split; try done.
Qed.

Lemma ensure_state_keeps_filter_witness :
  (ensure_state (<["map_filter" := {["kind" := VStr "SNIP"; "snip" := num 101]}]> session_0)).1
    = <["map_filter" := {["kind" := VStr "SNIP"; "snip" := num 101]}]> session_0
  ∧ (ensure_state ∅).1 = session_0.
Proof.
  split.
  - apply (proj1 (proj2 (proj2 (ensure_state_keeps_filter _)))). by_evaluation.
  - rewrite (proj1 (proj2 (proj2 (proj2 (ensure_state_keeps_filter ∅))))) by reflexivity.
    vm_compute. reflexivity.
Defined.


(** ** The popups *)

Lemma trunc_zero : pd.trunc (Q2Qc 0) = 0%Z.
Proof. reflexivity. Qed.

(** X10: the popup line of a row whose flag is NaN raises [ValueError],
    whereas the flag filter reads the same flag as 0 and raises nothing;
    hence drawing a frame raises as soon as one of its first [max_markers]
    rows has a NaN flag. *)
Theorem popup_raises_on_NaN_flag `{!Parsers} (d : pd.DataFrame) (title : string) (r : row) :
  r !! "flag_inconsistencia_estado_momento" = Some VNaN →
  popup_inconsistencia r = Raise ValueError
  ∧ pd.astype_int (pd.fillna0 (pd.cell "flag_inconsistencia_estado_momento" r)) = Ok 0%Z
  ∧ (r ∈ take max_markers (pd.rows d) → pd.columns d ≠ [] →
     ∃ e, render_map_popups d title = Raise e).
Proof.
  intros Hflag. assert (Hpop : popup_inconsistencia r = Raise ValueError).
  { unfold popup_inconsistencia, get_default. by rewrite Hflag. }
  split; [exact Hpop|]. split.
  - unfold pd.cell. by rewrite Hflag.
  - intros Hr Hcols. unfold render_map_popups, pd.empty.
    rewrite (bool_decide_eq_false_2 (pd.rows d = [])).
    2:{ intros Hnil. rewrite Hnil, take_nil in Hr. by apply elem_of_nil in Hr. }
    rewrite (bool_decide_eq_false_2 (pd.columns d = [])) by done. cbn [orb].
    destruct (traverse_is_Raise popup_inconsistencia (take max_markers (pd.rows d)) r ValueError)
      as [e He]; [done..|].
    exists e. unfold popups. cbn [pd.head pd.rows]. by rewrite He.
Qed.

Lemma popup_raises_on_NaN_flag_witness :
  popup_inconsistencia (H := decimal_parsers) p_villa_nueva = Raise ValueError
  ∧ filtered_points (H := decimal_parsers) sample ALL
    = Ok {| pd.columns := point_columns; pd.rows := [p_mixco; p_villa_nueva; p_flores] |}
  ∧ render_map_popups (H := decimal_parsers)
      {| pd.columns := point_columns; pd.rows := [p_mixco; p_villa_nueva; p_flores] |} "Mapa"
    = Raise ValueError.
Proof.
  split; [|split; vm_compute; reflexivity].
  refine (proj1 (popup_raises_on_NaN_flag (H := decimal_parsers) sample "Mapa" p_villa_nueva _)).
  vm_compute. reflexivity.
Defined.

(** X11: the popups agree with the flag filter on what it selects.  With an
    [int] that rejects the empty text, every row that the flag filter
    returns has the popup line "Sí", and drawing the result raises
    nothing. *)
Theorem flag_filter_popups `{!Parsers} (d : pd.DataFrame) (mf : dict) (out : pd.DataFrame)
    (title : string) :
  str_to_int "" = None →
  mf !! "kind" = Some (VStr "FLAG_INCONSISTENCIA") →
  filtered_points d mf = Ok out →
  (∀ r, r ∈ pd.rows out → popup_inconsistencia r = Ok "Sí")
  ∧ render_map_popups out title = Ok (render_map out title).
Proof.
  intros Hempty Hkind Hrun.
  assert (Hsi : ∀ r, r ∈ pd.rows out → popup_inconsistencia r = Ok "Sí").
  { destruct (decide ("latitud" ∈ pd.columns d ∧ "longitud" ∈ pd.columns d)) as [[Hla Hlo]|Hc].
    2:{ rewrite filtered_points_no_columns in Hrun by done. injection Hrun as <-.
        intros r Hr. by apply elem_of_nil in Hr. }
    apply filtered_points_Ok in Hrun as ->; [|done..]. cbn [pd.rows].
    intros r [Hsel _]%list_elem_of_filter. revert Hsel.
    unfold selects. kind_cases Hkind.
    unfold popup_inconsistencia, get_default, pd.cell, py_int.
    destruct (r !! "flag_inconsistencia_estado_momento") as [[| |q|s]|]; cbn; try done.
    - destruct (decide (q = Q2Qc 0)) as [->|Hq].
      + by rewrite trunc_zero.
      + unfold py_or, truthy. rewrite (bool_decide_eq_false_2 (q = Q2Qc 0)) by done. cbn.
        by case_bool_decide.
    - destruct (decide (s = "")) as [->|Hs].
      + by rewrite Hempty.
      + unfold py_or, truthy. rewrite (bool_decide_eq_false_2 (s = "")) by done. cbn.
        destruct (str_to_int s); cbn; [|done]. by case_bool_decide. }
  split; [exact Hsi|].
  unfold render_map_popups. destruct (pd.empty out); [done|].
  unfold popups.
  rewrite <- (list_fmap_id (pd.rows (pd.head max_markers out))).
  rewrite (traverse_all_Ok popup_inconsistencia id (λ _, "Sí")); [done|].
  intros r Hr. apply Hsi. cbn [pd.head pd.rows] in Hr.
  exact (sublist_subseteq _ _ (sublist_take (pd.rows out) max_markers) r Hr).
Qed.

Lemma flag_filter_popups_witness :
  filtered_points (H := decimal_parsers) sample {["kind" := VStr "FLAG_INCONSISTENCIA"]}
    = Ok {| pd.columns := point_columns; pd.rows := [p_mixco] |}
  ∧ render_map_popups (H := decimal_parsers)
      {| pd.columns := point_columns; pd.rows := [p_mixco] |} "Mapa"
    = Ok [st.subheader "Mapa"; st.caption 1 1; st.html [p_mixco]].
Proof.
  assert (Hrun : filtered_points (H := decimal_parsers) sample {["kind" := VStr "FLAG_INCONSISTENCIA"]}
                 = Ok {| pd.columns := point_columns; pd.rows := [p_mixco] |}).
  { vm_compute. reflexivity. }
  split; [exact Hrun|].
  refine (eq_trans (proj2 (flag_filter_popups (H := decimal_parsers) sample _ _ "Mapa" _ _ Hrun)) _);
    vm_compute; reflexivity.
Defined.

(** ** From a click on a table to the map *)

(** The selection blocks that copy one cell of the selected row into the
    filter: the kind they set, the column they read, and the block. *)
Definition select_blocks : list (string * string * (option row → st.script unit)) :=
  [("ESTADO", "estado_auditoria", on_select_estado);
   ("CODEDE", "departamento", on_select_codede);
   ("ENTIDAD", "entidad_ejecutora", on_select_entidad)].

Lemma select_block_run (k key : string) (h : option row → st.script unit)
    (r : row) (ss : st.session_state) :
  (k, key, h) ∈ select_blocks →
  h (Some r) ss =
    match r !! key with
    | Some v => set_map_filter k {[key := v]} ss
    | None => (ss, Raise (KeyError key))
    end.
Proof.
  unfold select_blocks. intros Hb.
  repeat (apply elem_of_cons in Hb as [[= -> -> ->]|Hb]); [..|by apply elem_of_nil in Hb];
    cbn; unfold st.bind, eval, row_getitem; by destruct (r !! _).
Qed.

(** X12: a click on a row of the status, department or entity table sets the
    filter to the cell of that row, and the map then shows exactly the
    coordinate-bearing points whose column equals that cell; the block ends
    with the rerun signal or returns, and when the table lacks the column it
    raises [KeyError] and leaves the session as it was. *)
Theorem table_click_filters_map `{!Parsers} (k key : string) (h : option row → st.script unit)
    (snip : pd.DataFrame) (r : row) (ss : st.session_state) :
  (k, key, h) ∈ select_blocks →
  "latitud" ∈ pd.columns snip → "longitud" ∈ pd.columns snip → key ∈ pd.columns snip →
  (∀ v, r !! key = Some v →
     current (h (Some r) ss).1 = {[key := v]} ∪ {["kind" := VStr k]}
     ∧ ((h (Some r) ss).2 = Ok tt ∨ (h (Some r) ss).2 = Raise RerunException)
     ∧ filtered_points snip (current (h (Some r) ss).1) =
         Ok {| pd.columns := pd.columns snip;
               pd.rows := filter (λ p, pd.eq_scalar (pd.cell key p) v = true)
                                 (pd.rows (with_coords snip)) |})
  ∧ (r !! key = None → h (Some r) ss = (ss, Raise (KeyError key)))
  ∧ h None ss = (ss, Ok tt).
Proof.
  intros Hb Hla Hlo Hkey. rewrite (select_block_run k key h r ss Hb).
  split; [|split].
  - intros v ->. rewrite set_map_filter_run. cbn [fst snd]. rewrite current_insert.
    split; [done|]. split; [case_bool_decide; [by right|by left]|].
    assert (Hk : (k, key) ∈ single_key_variants ∧ key ≠ "kind").
    { unfold select_blocks in Hb.
      repeat (apply elem_of_cons in Hb as [[= -> -> ->]|Hb]); [..|by apply elem_of_nil in Hb];
        (split; [by_evaluation|done]). }
    destruct Hk as [Hk Hne].
    rewrite (filtered_points_single_key snip _ k key); try done.
    + unfold get, build. rewrite lookup_union_l by (by rewrite lookup_singleton_ne).
      by rewrite lookup_singleton_eq.
    + apply lookup_build_kind. by rewrite lookup_singleton_ne.
  - by intros ->.
  - unfold select_blocks in Hb.
    by repeat (apply elem_of_cons in Hb as [[= -> -> ->]|Hb]); [..|by apply elem_of_nil in Hb].
Qed.

Lemma table_click_filters_map_witness :
  filtered_points (H := decimal_parsers) sample
    (current (on_select_codede (Some {["departamento" := VStr "Guatemala"]}) session_0).1)
  = Ok {| pd.columns := point_columns;
          pd.rows := filter (λ p, pd.eq_scalar (pd.cell "departamento" p) (VStr "Guatemala") = true)
                            (pd.rows (with_coords (H := decimal_parsers) sample)) |}.
Proof.
  refine (proj2 (proj2 (proj1 (table_click_filters_map (H := decimal_parsers)
            "CODEDE" "departamento" on_select_codede sample
            {["departamento" := VStr "Guatemala"]} session_0 _ _ _ _) (VStr "Guatemala") _)));
    [unfold select_blocks; right; left|by_evaluation..].
Defined.

(** X13: a click on a row of the municipality table sets the filter to the
    department and the municipality of that row, and the map then shows
    exactly the coordinate-bearing points that agree with the row on both. *)
Theorem municipio_click_filters_map `{!Parsers} (snip : pd.DataFrame) (r : row)
    (ss : st.session_state) (dep mu : value) :
  "latitud" ∈ pd.columns snip → "longitud" ∈ pd.columns snip →
  "departamento" ∈ pd.columns snip → "municipio" ∈ pd.columns snip →
  r !! "departamento" = Some dep → r !! "municipio" = Some mu →
  ((on_select_municipio (Some r) ss).2 = Ok tt
   ∨ (on_select_municipio (Some r) ss).2 = Raise RerunException)
  ∧ filtered_points snip (current (on_select_municipio (Some r) ss).1) =
      Ok {| pd.columns := pd.columns snip;
            pd.rows := filter (λ p, pd.eq_scalar (pd.cell "departamento" p) dep
                                    && pd.eq_scalar (pd.cell "municipio" p) mu = true)
                              (pd.rows (with_coords snip)) |}.
Proof.
  intros Hla Hlo Hdep Hmun Hr_dep Hr_mun.
  assert (Hrun : on_select_municipio (Some r) ss =
            set_map_filter "MUNICIPIO" (<["municipio" := mu]> {["departamento" := dep]}) ss).
  { cbn. unfold st.bind, eval, row_getitem. by rewrite Hr_dep, Hr_mun. }
  rewrite Hrun, set_map_filter_run. cbn [fst snd]. rewrite current_insert.
  split; [case_bool_decide; [by right|by left]|].
  set (mf := build "MUNICIPIO" (<["municipio" := mu]> {["departamento" := dep]})).
  assert (Hkind : mf !! "kind" = Some (VStr "MUNICIPIO")).
  { apply lookup_build_kind. by simplify_map_eq. }
  assert (Hget_dep : get mf "departamento" = dep).
  { unfold get, mf, build. by simplify_map_eq. }
  assert (Hget_mun : get mf "municipio" = mu).
  { unfold get, mf, build. by simplify_map_eq. }
  rewrite filtered_points_eq by done.
  unfold needs, casts, selects. kind_cases Hkind. cbn [List.find].
  rewrite !bool_decide_eq_true_2 by done. cbn [negb List.find traverse mbind result_bind].
  by rewrite Hget_dep, Hget_mun.
Qed.

Lemma municipio_click_filters_map_witness :
  filtered_points (H := decimal_parsers) sample
    (current (on_select_municipio
                (Some {["departamento" := VStr "Guatemala"; "municipio" := VStr "Mixco"]})
                session_0).1)
  = Ok {| pd.columns := point_columns; pd.rows := [p_mixco] |}.
Proof.
  refine (eq_trans (proj2 (municipio_click_filters_map (H := decimal_parsers) sample
            {["departamento" := VStr "Guatemala"; "municipio" := VStr "Mixco"]} session_0
            (VStr "Guatemala") (VStr "Mixco") _ _ _ _ _ _)) _);
    try by_evaluation.
  vm_compute. reflexivity.
Defined.

(** X14: a click on a row of one of the two project tables sets the filter to
    [int] of the identifier of that row, and the map then shows exactly the
    coordinate-bearing points with that identifier; when [int] raises, as it
    does on a NaN identifier, or when the table has no [snip] column, the
    block raises and the session is as it was. *)
Theorem snip_click_filters_map `{!Parsers} (snip : pd.DataFrame) (r : row) (ss : st.session_state) :
  "latitud" ∈ pd.columns snip → "longitud" ∈ pd.columns snip → "snip" ∈ pd.columns snip →
  (∀ v z, r !! "snip" = Some v → py_int v = Ok z →
     ((on_select_snip (Some r) ss).2 = Ok tt
      ∨ (on_select_snip (Some r) ss).2 = Raise RerunException)
     ∧ current (on_select_snip (Some r) ss).1 = {["snip" := num z]} ∪ {["kind" := VStr "SNIP"]}
     ∧ filtered_points snip (current (on_select_snip (Some r) ss).1) =
         Ok {| pd.columns := pd.columns snip;
               pd.rows := filter (λ p, pd.eq_scalar (pd.cell "snip" p) (num z) = true)
                                 (pd.rows (with_coords snip)) |})
  ∧ (∀ v e, r !! "snip" = Some v → py_int v = Raise e →
       on_select_snip (Some r) ss = (ss, Raise e))
  ∧ (r !! "snip" = Some VNaN → on_select_snip (Some r) ss = (ss, Raise ValueError))
  ∧ (r !! "snip" = None → on_select_snip (Some r) ss = (ss, Raise (KeyError "snip"))).
Proof.
  intros Hla Hlo Hsnip.
  assert (Hfail : ∀ v e, r !! "snip" = Some v → py_int v = Raise e →
            on_select_snip (Some r) ss = (ss, Raise e)).
  { intros v e Hv He. cbn. unfold st.bind, eval, row_getitem. by rewrite Hv, He. }
  split; [|split; [exact Hfail|split]].
  - intros v z Hv Hz.
    assert (Hrun : on_select_snip (Some r) ss = set_map_filter "SNIP" {["snip" := num z]} ss).
    { cbn. unfold st.bind, eval, row_getitem. by rewrite Hv, Hz. }
    rewrite Hrun, set_map_filter_run. cbn [fst snd]. rewrite current_insert.
    split; [case_bool_decide; [by right|by left]|]. split; [done|].
    rewrite (filtered_points_single_key snip _ "SNIP" "snip");
      [unfold get, build; by simplify_map_eq|done|done|by_evaluation
      |apply lookup_build_kind; by simplify_map_eq|done].
  - intros Hv. by apply (Hfail VNaN).
  - intros Hv. cbn. unfold st.bind, eval, row_getitem. by rewrite Hv.
Qed.

Lemma snip_click_filters_map_witness :
  current (on_select_snip (H := decimal_parsers) (Some {["snip" := decimal 1010 10]}) session_0).1
    = {["snip" := num 101]} ∪ {["kind" := VStr "SNIP"]}
  ∧ on_select_snip (H := decimal_parsers) (Some {["snip" := VNaN]}) session_0
    = (session_0, Raise ValueError).
Proof.
  split.
  - refine (proj1 (proj2 (proj1 (snip_click_filters_map (H := decimal_parsers) sample
              {["snip" := decimal 1010 10]} session_0 _ _ _) (decimal 1010 10) 101%Z _ _)));
      try by_evaluation; vm_compute; reflexivity.
  - refine (proj1 (proj2 (proj2 (snip_click_filters_map (H := decimal_parsers) sample
              {["snip" := VNaN]} session_0 _ _ _))) _); by_evaluation.
Defined.

(** X15: with a row selected in the municipality table and a row selected in
    the department table, the two selection blocks, run one after the other as
    the script does, never both return: whatever filter the session holds, the
    first asks for the rerun when the filter is not its own, and otherwise the
    second does. *)
Theorem two_selections_always_rerun (r_mun r_dep : row) (ss : st.session_state) :
  is_Some (r_mun !! "departamento") → is_Some (r_mun !! "municipio") →
  is_Some (r_dep !! "departamento") →
  ((on_select_municipio (Some r_mun);; on_select_codede (Some r_dep))%script ss).2
  = Raise RerunException.
Proof.
  intros [dep Hdep] [mu Hmu] [dep' Hdep'].
  unfold st.bind at 1.
  assert (Hmun : on_select_municipio (Some r_mun) ss
                 = set_map_filter "MUNICIPIO" (<["municipio" := mu]> {["departamento" := dep]}) ss).
  { cbn. unfold st.bind, eval, row_getitem. by rewrite Hdep, Hmu. }
  rewrite Hmun, set_map_filter_run.
  case_bool_decide; [done|].
  assert (Hcod : ∀ ss', on_select_codede (Some r_dep) ss'
                        = set_map_filter "CODEDE" {["departamento" := dep']} ss').
  { intros ss'. cbn. unfold st.bind, eval, row_getitem. by rewrite Hdep'. }
  rewrite Hcod, set_map_filter_run, current_insert.
  rewrite bool_decide_eq_true_2; [done|].
  intros Heq. apply (f_equal (λ m : dict, m !! "kind")) in Heq.
  rewrite !lookup_build_kind in Heq by (by simplify_map_eq). done.
Qed.

Lemma two_selections_always_rerun_witness :
  ((on_select_municipio (Some {["departamento" := VStr "Guatemala"; "municipio" := VStr "Mixco"]});;
    on_select_codede (Some {["departamento" := VStr "Peten"]}))%script session_0).2
  = Raise RerunException.
Proof.
  apply two_selections_always_rerun; by_evaluation.
Defined.

(** ** The map at the start of a pass *)

Lemma ensure_state_run (ss : st.session_state) :
  ensure_state ss =
    (match ss !! "map_filter" with Some _ => ss | None => <["map_filter" := ALL]> ss end, Ok tt).
Proof.
  unfold ensure_state, st.bind, st.session_contains, st.session_set, st.ret.
  destruct (ss !! "map_filter") as [mf|].
  - by rewrite (bool_decide_eq_true_2 (is_Some (Some mf))) by (by eexists).
  - by rewrite (bool_decide_eq_false_2 (is_Some None)) by (by intros [??]).
Qed.

Lemma ensure_state_lookup (ss : st.session_state) :
  (ensure_state ss).1 !! "map_filter" = Some (current ss).
Proof.
  rewrite ensure_state_run. unfold current. cbn [fst].
  destruct (ss !! "map_filter") as [mf|] eqn:Hmf; [by rewrite Hmf|].
  by rewrite lookup_insert_eq.
Qed.

Lemma mapa_run `{!Parsers} (snip : pd.DataFrame) (ss : st.session_state) (mf : dict) :
  ss !! "map_filter" = Some mf →
  mapa snip ss =
    (ss, pts ← filtered_points snip mf;
         render_map_popups pts "Mapa de proyectos (según selección en tablas)").
Proof.
  intros Hmf. unfold mapa, st.bind, session_getitem, eval. rewrite Hmf.
  by destruct (filtered_points snip mf).
Qed.

(** X16: once [ensure_state] has run, drawing the map cannot fail on the
    session key: the map is drawn for the filter that the session held,
    [ALL] on a new session, and what the drawing raises, if it raises, is
    neither the rerun signal nor [KeyError] for "map_filter". *)
Theorem map_after_ensure_state `{!Parsers} (snip : pd.DataFrame) (ss : st.session_state) :
  (ensure_state;; mapa snip)%script ss =
    ((ensure_state ss).1,
     pts ← filtered_points snip (current ss);
     render_map_popups pts "Mapa de proyectos (según selección en tablas)")
  ∧ ((ensure_state;; mapa snip)%script ss).2 ≠ Raise RerunException
  ∧ ((ensure_state;; mapa snip)%script ss).2 ≠ Raise (KeyError "map_filter")
  ∧ (mapa snip ∅).2 = Raise (KeyError "map_filter").
Proof.
  assert (Hrun : (ensure_state;; mapa snip)%script ss =
    ((ensure_state ss).1,
     pts ← filtered_points snip (current ss);
     render_map_popups pts "Mapa de proyectos (según selección en tablas)")).
  { unfold st.bind at 1. pose proof (ensure_state_lookup ss) as Hlook.
    rewrite ensure_state_run in *. cbn [fst] in *.
    by rewrite (mapa_run snip _ _ Hlook). }
  rewrite Hrun. cbn [fst snd]. split; [done|].
  split; [|split; [|done]].
  - destruct (filtered_points snip (current ss)) as [pts|e] eqn:Hpts; cbn [mbind result_bind].
    + unfold render_map_popups. destruct (pd.empty pts); [done|].
      destruct (popups pts) as [ps|e] eqn:Hps; cbn [mbind result_bind]; [done|].
      intros [= ->]. apply traverse_Raise in Hps as (r & _ & Hr).
      unfold popup_inconsistencia in Hr.
      destruct (py_int _) as [z|e] eqn:Hz; cbn in Hr; [done|]. injection Hr as ->.
      by apply astype_int_Raise in Hz as [[? _]|[? _]].
    + intros [= ->].
      destruct (decide ("latitud" ∈ pd.columns snip ∧ "longitud" ∈ pd.columns snip)) as [[??]|?].
      * rewrite filtered_points_eq in Hpts by done.
        destruct (List.find _ _); [done|].
        destruct (traverse pd.astype_int _) as [|e] eqn:Hcast; [done|].
        injection Hpts as ->. apply traverse_Raise in Hcast as (v & _ & Hv).
        by apply astype_int_Raise in Hv as [[? _]|[? _]].
      * by rewrite filtered_points_no_columns in Hpts.
  - destruct (filtered_points snip (current ss)) as [pts|e] eqn:Hpts; cbn [mbind result_bind].
    + unfold render_map_popups. destruct (pd.empty pts); [done|].
      destruct (popups pts) as [ps|e] eqn:Hps; cbn [mbind result_bind]; [done|].
      intros [= ->]. apply traverse_Raise in Hps as (r & _ & Hr).
      unfold popup_inconsistencia in Hr.
      destruct (py_int _) as [z|e] eqn:Hz; cbn in Hr; [done|]. injection Hr as ->.
      by apply astype_int_Raise in Hz as [[? _]|[? _]].
    + intros [= ->].
      destruct (decide ("latitud" ∈ pd.columns snip ∧ "longitud" ∈ pd.columns snip)) as [[??]|?].
      * rewrite filtered_points_eq in Hpts by done.
        destruct (List.find _ _) as [c|] eqn:Hfind.
        -- injection Hpts as ->.
           apply find_Some_split in Hfind as (before & after & Hneeds & _).
           assert (Hin : "map_filter" ∈ needs (current ss)).
           { rewrite Hneeds. apply elem_of_app. right. left. }
           revert Hin. unfold needs. repeat case_match; by_evaluation.
        -- destruct (traverse pd.astype_int _) as [|e] eqn:Hcast; [done|].
           injection Hpts as ->. apply traverse_Raise in Hcast as (v & _ & Hv).
           by apply astype_int_Raise in Hv as [[? _]|[? _]].
      * by rewrite filtered_points_no_columns in Hpts.
Qed.

(** X17: the reset does not hold while a row of the department table stays
    selected.  From a session that holds the filter of that row, [reset_map]
    sets [ALL] and asks for a rerun; the selection block, run again with the
    same row, puts the filter of the row back and asks for a rerun as
    well. *)
Theorem reset_is_undone_by_selection (r : row) (v : value) (ss : st.session_state) :
  r !! "departamento" = Some v →
  current ss = {["departamento" := v]} ∪ {["kind" := VStr "CODEDE"]} →
  (reset_map ss).2 = Raise RerunException
  ∧ current (reset_map ss).1 = ALL
  ∧ (on_select_codede (Some r) (reset_map ss).1).2 = Raise RerunException
  ∧ current (on_select_codede (Some r) (reset_map ss).1).1 = current ss.
Proof.
  intros Hr Hcur.
  assert (Hne : current ss ≠ ALL).
  { rewrite Hcur. intros Heq. apply (f_equal (λ m : dict, m !! "departamento")) in Heq.
    unfold ALL in Heq. by simplify_map_eq. }
  rewrite reset_map_run. cbn [fst snd]. rewrite current_insert.
  rewrite (bool_decide_eq_true_2 (current ss ≠ ALL)) by done.
  split; [done|]. split; [done|].
  assert (Hcod : ∀ ss', on_select_codede (Some r) ss'
                        = set_map_filter "CODEDE" {["departamento" := v]} ss').
  { intros ss'. cbn. unfold st.bind, eval, row_getitem. by rewrite Hr. }
  rewrite Hcod, set_map_filter_run. cbn [fst snd]. rewrite !current_insert.
  unfold build. rewrite <- Hcur.
  by rewrite bool_decide_eq_true_2 by (intros Heq; by apply Hne).
Qed.

Lemma reset_is_undone_by_selection_witness :
  current (on_select_codede (Some {["departamento" := VStr "Guatemala"]})
             (reset_map (<["map_filter" := {["departamento" := VStr "Guatemala"]}
                                             ∪ {["kind" := VStr "CODEDE"]}]> session_0)).1).1
  = {["departamento" := VStr "Guatemala"]} ∪ {["kind" := VStr "CODEDE"]}.
Proof.
  refine (eq_trans (proj2 (proj2 (proj2 (reset_is_undone_by_selection
            {["departamento" := VStr "Guatemala"]} (VStr "Guatemala")
            (<["map_filter" := {["departamento" := VStr "Guatemala"]}
                                ∪ {["kind" := VStr "CODEDE"]}]> session_0) _ _)))) _);
    vm_compute; reflexivity.
Defined.

(** ** Links to the project pages *)

Section links.
Context `{!Parsers}.
Import pd.

(** The double quote. *)
Definition dq : string := String "034"%char EmptyString.

(** [SNIP_URL_TMPL.format(snip=snip)] for an integer [snip]. *)
Definition SNIP_URL_TMPL (snip : Z) : string :=
  "https://sistemas.segeplan.gob.gt/guest/SNPPKG$PL_PROYECTOS.INFORMACION?prmIdSnip="
  +:+ pretty snip.

Definition snip_link (snip : value) : string :=
  if isna snip then "—"
  else
    match py_int snip with
    | Ok snip =>
        "<a href=" +:+ dq +:+ SNIP_URL_TMPL snip +:+ dq +:+ " target=" +:+ dq +:+ "_blank" +:+ dq
        +:+ ">" +:+ pretty snip +:+ "</a>"
    | Raise _ => "—"
    end.

Definition add_snip_link_column (df : DataFrame) : DataFrame :=
  let out := df in
  if bool_decide ("snip" ∈ columns out)
  then setitem_map "snip" (λ v, VStr (snip_link v)) out
  else out.

End links.

Lemma string_length_app (s t : string) :
  String.length (s +:+ t) = String.length s + String.length t.
Proof.
  induction s as [|a s IH]; [done|].
  change (String a s +:+ t) with (String a (s +:+ t)). cbn. by rewrite IH.
Qed.

Lemma string_app_assoc (s t u : string) : (s +:+ t) +:+ u = s +:+ (t +:+ u).
Proof.
  induction s as [|a s IH]; [done|].
  change (String a ((s +:+ t) +:+ u) = String a (s +:+ (t +:+ u))). by rewrite IH.
Qed.

Lemma string_app_inj_length (s1 s2 t1 t2 : string) :
  String.length s1 = String.length s2 → s1 +:+ t1 = s2 +:+ t2 → s1 = s2.
Proof.
  revert s2. induction s1 as [|a s1 IH]; intros [|b s2]; cbn; try done.
  intros [= Hlen] Happ.
  change (String a (s1 +:+ t1) = String b (s2 +:+ t2)) in Happ.
  injection Happ as -> Happ. f_equal. by apply IH.
Qed.

Lemma trunc_num (z : Z) : pd.trunc (Q2Qc (inject_Z z)) = z.
Proof.
  unfold pd.trunc, Q2Qc. cbn [this].
  rewrite Qred_identity by (cbn; apply Z.gcd_1_r).
  cbn. apply Z.quot_1_r.
Qed.

Lemma snip_link_num `{!Parsers} (z : Z) :
  snip_link (num z) =
    "<a href=" +:+ dq +:+ SNIP_URL_TMPL z +:+ dq +:+ " target=" +:+ dq +:+ "_blank" +:+ dq
    +:+ ">" +:+ pretty z +:+ "</a>".
Proof. unfold snip_link, py_int, num. cbn [pd.isna pd.astype_int]. by rewrite trunc_num. Qed.

(** X18: [snip_link] gives the dash for a missing identifier and for a text
    that [int] rejects, and a link otherwise; the link of a number is the
    link of its integer part; a link is never the dash; and different
    integers get different links. *)
Theorem snip_link_distinguishes `{!Parsers} :
  (∀ v, pd.isna v = true → snip_link v = "—")
  ∧ (∀ s, str_to_int s = None → snip_link (VStr s) = "—")
  ∧ (∀ q, snip_link (VNum q) = snip_link (num (pd.trunc q)))
  ∧ (∀ a : Z, snip_link (num a) ≠ "—")
  ∧ (∀ a b : Z, snip_link (num a) = snip_link (num b) → a = b).
Proof.
  split; [|split; [|split; [|split]]].
  - intros v Hv. unfold snip_link. by rewrite Hv.
  - intros s Hs. unfold snip_link, py_int. cbn. by rewrite Hs.
  - intros q. rewrite snip_link_num. reflexivity.
  - intros a. by rewrite snip_link_num.
  - intros a b. rewrite !snip_link_num. unfold SNIP_URL_TMPL.
    intros Heq. apply (inj (String.app _)) in Heq. apply (inj (String.app _)) in Heq.
    rewrite !string_app_assoc in Heq. apply (inj (String.app _)) in Heq.
    assert (Hlen : String.length (pretty a) = String.length (pretty b)).
    { apply (f_equal String.length) in Heq. rewrite !string_length_app in Heq.
      cbn in Heq. lia. }
    by apply string_app_inj_length, (inj pretty) in Heq.
Qed.

Example snip_link_101 :
  snip_link (H := decimal_parsers) (decimal 1010 10)
  = "<a href=" +:+ dq
    +:+ "https://sistemas.segeplan.gob.gt/guest/SNPPKG$PL_PROYECTOS.INFORMACION?prmIdSnip=101"
    +:+ dq +:+ " target=" +:+ dq +:+ "_blank" +:+ dq +:+ ">101</a>".
Proof. vm_compute. reflexivity. Qed.
